(** * Charts Agent front end: session orchestration and chart slots

    A shallow embedding of the browser client under
    [charts_agent/frontend/src]: the chart grid ([components/ChartGrid.tsx]),
    the chart card ([components/ChartCard.tsx]), the dataset preview
    ([components/DataPreview.tsx]), the manual chart form
    ([components/ChartControls.tsx]), the chat and upload panels
    ([components/ChatPanel.tsx], [components/UploadPanel.tsx]), the
    calls to the back end ([api.ts]) and the event handlers of the
    application shell ([App.tsx]).

    React state is modelled by explicit state passing.  A handler is a
    computation in a small state monad; the three calls of [./api] are
    parameters of the handlers, and every call that reaches one of them
    is recorded in a log, so that "no request was sent" is a statement
    about that log.  The functions of [api.ts] are modelled over the
    [fetch] of the browser and can be passed to the handlers. *)

From Stdlib Require Import Ascii String.
From stdpp Require Import base option list strings pretty.

Local Open Scope string_scope.
Local Open Scope list_scope.

(** ** JavaScript strings *)

Module Js.

(** [String.prototype.toLowerCase] on the ASCII range: the letters
    [A]..[Z] are moved to [a]..[z], every other character is kept.
    The method of the language also maps the letters outside this
    range.  The slot kinds bar, line and pie are matched the same way
    under both, and the grid is modelled with this function; the
    statements about the resolved kind itself take the method as a
    parameter ([ChartGrid.normalizeTypeWith]). *)
Definition lower_ascii (c : ascii) : ascii :=
  let n := nat_of_ascii c in
  if (65 <=? n)%nat && (n <=? 90)%nat then ascii_of_nat (n + 32) else c.

Fixpoint toLowerCase (s : string) : string :=
  match s with
  | EmptyString => EmptyString
  | String c s' => String (lower_ascii c) (toLowerCase s')
  end.

(** [s.includes(t)]: [t] occurs in [s] as a contiguous substring. *)
Fixpoint includes (s t : string) : bool :=
  String.prefix t s ||
  match s with
  | EmptyString => false
  | String _ s' => includes s' t
  end.

(** Truthiness of a string: only the empty string is falsy. *)
Definition truthy (s : string) : bool :=
  match s with
  | EmptyString => false
  | String _ _ => true
  end.

(** Truthiness of [string | null | undefined]. *)
Definition truthy_opt (o : option string) : bool :=
  match o with
  | Some s => truthy s
  | None => false
  end.

(** The string that a passed truthiness test narrows [o] to. *)
Definition as_truthy (o : option string) : option string :=
  match o with
  | Some s => if truthy s then Some s else None
  | None => None
  end.

(** [l.slice(0, stop)]: a negative [stop] counts from the end of [l],
    and the bound is clamped to the length of [l]. *)
Definition slice0 {A : Type} (stop : Z) (l : list A) : list A :=
  let len := Z.of_nat (length l) in
  let k := if (stop <? 0)%Z then Z.max (len + stop) 0 else Z.min stop len in
  take (Z.to_nat k) l.

(** A JSON value, as the chart configuration arrives from the back end.
    An object is its list of key/value pairs. *)
#[local] Unset Elimination Schemes.
Inductive Json : Type :=
| JNull : Json
| JBool : bool -> Json
| JNum : Z -> Json
| JStr : string -> Json
| JArr : list Json -> Json
| JObj : list (string * Json) -> Json.
#[local] Set Elimination Schemes.

Fixpoint assoc (k : string) (fields : list (string * Json)) : option Json :=
  match fields with
  | [] => None
  | (k', v) :: rest => if String.eqb k k' then Some v else assoc k rest
  end.

(** [v?.k]: property access with optional chaining.  [None] is
    [undefined]; only objects carry the data properties read here. *)
Definition get (v : option Json) (k : string) : option Json :=
  match v with
  | Some (JObj fields) => assoc k fields
  | _ => None
  end.

(** [Array.isArray(v) ? v : []] *)
Definition array_or_empty (v : option Json) : list Json :=
  match v with
  | Some (JArr items) => items
  | _ => []
  end.

(** [typeof v === "string"] *)
Definition is_string (v : option Json) : bool :=
  match v with
  | Some (JStr _) => true
  | _ => false
  end.

(** [Array.prototype.find] *)
Fixpoint find {A : Type} (p : A -> bool) (l : list A) : option A :=
  match l with
  | [] => None
  | x :: rest => if p x then Some x else find p rest
  end.

(** A value that was thrown and caught: an [Error] with its message, or
    anything else. *)
Inductive Thrown : Type :=
| ErrorObject : string -> Thrown
| OtherValue : Thrown.

(** The settled state of an awaited promise. *)
Inductive Outcome (A : Type) : Type :=
| Resolved : A -> Outcome A
| Rejected : Thrown -> Outcome A.

Arguments Resolved {A} _.
Arguments Rejected {A} _.

(** [err instanceof Error ? err.message : fallback] *)
Definition message_or (err : Thrown) (fallback : string) : string :=
  match err with
  | ErrorObject m => m
  | OtherValue => fallback
  end.

(** [String.prototype.toUpperCase] on the ASCII range. *)
Definition upper_ascii (c : ascii) : ascii :=
  let n := nat_of_ascii c in
  if (97 <=? n)%nat && (n <=? 122)%nat then ascii_of_nat (n - 32) else c.

Fixpoint toUpperCase (s : string) : string :=
  match s with
  | EmptyString => EmptyString
  | String c s' => String (upper_ascii c) (toUpperCase s')
  end.

(** [s.replace(/\/$/, "")]: one slash at the very end of [s] is
    removed. *)
Fixpoint strip_trailing_slash (s : string) : string :=
  match s with
  | EmptyString => EmptyString
  | String c s' =>
      match s' with
      | EmptyString => if Ascii.eqb c "/" then EmptyString else s
      | String _ _ => String c (strip_trailing_slash s')
      end
  end.

(** Truthiness of a JSON value: [null], [false], [0] and the empty
    string are falsy. *)
Definition truthy_json (v : Json) : bool :=
  match v with
  | JNull => false
  | JBool b => b
  | JNum n => negb (n =? 0)%Z
  | JStr t => truthy t
  | JArr _ | JObj _ => true
  end.

(** [Object.keys(v).length > 0] for a value that is neither [null] nor
    [undefined]: objects list their keys, arrays and strings their
    indices, numbers and booleans nothing. *)
Definition has_keys (v : Json) : bool :=
  match v with
  | JObj fields => negb (length fields =? 0)%nat
  | JArr items => negb (length items =? 0)%nat
  | JStr t => truthy t
  | _ => false
  end.

(** The property names that an object literal inherits from
    [Object.prototype]; all of them hold functions or objects. *)
Definition object_prototype_names : list string :=
  [ "constructor"; "__defineGetter__"; "__defineSetter__";
    "hasOwnProperty"; "__lookupGetter__"; "__lookupSetter__";
    "isPrototypeOf"; "propertyIsEnumerable"; "toString"; "valueOf";
    "__proto__"; "toLocaleString" ].

(** The object that [JSON.stringify] writes for an object literal:
    properties whose value is [undefined] are left out. *)
Definition stringify_object (fields : list (string * option Json)) : Json :=
  JObj (omap (fun kv => match snd kv with
                        | Some v => Some (fst kv, v)
                        | None => None
                        end) fields).

End Js.

(** ** A state monad for handlers and closures over mutable locals *)

Definition State (S A : Type) : Type := S -> A * S.

#[export] Instance state_ret {S : Type} : MRet (State S) :=
  fun A a s => (a, s).

#[export] Instance state_bind {S : Type} : MBind (State S) :=
  fun A B k m s => let (a, s') := m s in k a s'.

Definition modify {S : Type} (f : S -> S) : State S unit :=
  fun s => (tt, f s).

Definition read {S : Type} : State S S := fun s => (s, s).

(** [await] inside an [async] function: the function goes on with the
    value of a promise that resolved, and rejects with the same value
    when the promise rejected. *)
#[export] Instance outcome_ret : MRet Js.Outcome :=
  fun A a => Js.Resolved a.

#[export] Instance outcome_bind : MBind Js.Outcome :=
  fun A B k m =>
    match m with
    | Js.Resolved a => k a
    | Js.Rejected err => Js.Rejected err
    end.

(** [Array.prototype.map] with a callback that has effects: the callback
    runs on the elements from left to right. *)
Fixpoint mapM {S A B : Type} (f : A -> State S B) (l : list A)
  : State S (list B) :=
  match l with
  | [] => mret []
  | x :: rest =>
      y ← f x;
      ys ← mapM f rest;
      mret (y :: ys)
  end.

(** ** types.ts

    Fields that share a name across interfaces carry a prefix here
    ([up_], [chat_], [manual_]); [option] of [ChartIdea] is
    [chart_option]. *)

Record ColumnSummary : Type := {
  name : string;
  dtype : string;
  non_null : Z;
  sample_values : list Js.Json
}.

Definition PreviewRow : Type := list (string * Js.Json).

(** [chart_type] is declared a string, but the value comes from a JSON
    response and the code tests it for truthiness, so it may be missing. *)
Record ChartIdea : Type := {
  title : string;
  description : string;
  chart_type : option string;
  chart_option : option Js.Json
}.

Inductive Role : Type := user | assistant.

Record Message : Type := {
  role : Role;
  content : string
}.

Record UploadResponse : Type := {
  up_sessionId : string;
  up_columns : list ColumnSummary;
  up_preview : list PreviewRow
}.

(** The handlers read [charts], [history] and [message] through [??], so
    these fields may be [null] or missing in a response. *)
Record ChatResponse : Type := {
  reply : string;
  chat_charts : option (list ChartIdea);
  chat_history : option (list Message)
}.

Inductive ChartAggregation : Type := count | sum | mean.

Inductive ChartKind : Type := bar | line | pie.

Record ManualChartRequest : Type := {
  chartType : ChartKind;
  groupBy : option string;
  value : option string;
  agg : option ChartAggregation
}.

Record ManualChartResponse : Type := {
  manual_message : option string;
  manual_chart : option ChartIdea;
  manual_charts : option (list ChartIdea)
}.

(** ** components/ChartCard.tsx *)

Module ChartCard.

Definition week : Js.Json :=
  Js.JArr [Js.JStr "Mon"; Js.JStr "Tue"; Js.JStr "Wed"; Js.JStr "Thu";
           Js.JStr "Fri"; Js.JStr "Sat"; Js.JStr "Sun"].

Definition half_year : Js.Json :=
  Js.JArr [Js.JStr "Jan"; Js.JStr "Feb"; Js.JStr "Mar"; Js.JStr "Apr";
           Js.JStr "May"; Js.JStr "Jun"; Js.JStr "Jul"].

Definition share (v : Z) (n : string) : Js.Json :=
  Js.JObj [("value", Js.JNum v); ("name", Js.JStr n)].

Definition fallbackOptions : list (string * Js.Json) :=
  [ ("bar",
     Js.JObj
       [ ("title", Js.JObj [("text", Js.JStr "Sample Bar Chart")]);
         ("tooltip", Js.JObj [("trigger", Js.JStr "axis")]);
         ("xAxis", Js.JObj [("type", Js.JStr "category"); ("data", week)]);
         ("yAxis", Js.JObj [("type", Js.JStr "value")]);
         ("series",
          Js.JArr
            [Js.JObj
               [ ("name", Js.JStr "Value");
                 ("type", Js.JStr "bar");
                 ("data",
                  Js.JArr (map Js.JNum [120; 200; 150; 80; 70; 110; 130]%Z))
               ]]) ]);
    ("line",
     Js.JObj
       [ ("title", Js.JObj [("text", Js.JStr "Sample Line Chart")]);
         ("tooltip", Js.JObj [("trigger", Js.JStr "axis")]);
         ("xAxis",
          Js.JObj [("type", Js.JStr "category"); ("data", half_year)]);
         ("yAxis", Js.JObj [("type", Js.JStr "value")]);
         ("series",
          Js.JArr
            [Js.JObj
               [ ("name", Js.JStr "Trend");
                 ("type", Js.JStr "line");
                 ("data",
                  Js.JArr
                    (map Js.JNum [820; 932; 901; 934; 1290; 1330; 1320]%Z));
                 ("smooth", Js.JBool true) ]]) ]);
    ("pie",
     Js.JObj
       [ ("title",
          Js.JObj [("text", Js.JStr "Sample Pie Chart");
                   ("left", Js.JStr "center")]);
         ("tooltip", Js.JObj [("trigger", Js.JStr "item")]);
         ("legend", Js.JObj [("bottom", Js.JNum 0)]);
         ("series",
          Js.JArr
            [Js.JObj
               [ ("name", Js.JStr "Share");
                 ("type", Js.JStr "pie");
                 ("radius", Js.JStr "60%");
                 ("data",
                  Js.JArr [share 1048 "Search"; share 735 "Direct";
                           share 580 "Email"; share 484 "Union Ads";
                           share 300 "Video Ads"]) ]]) ]) ].

Definition getDisplayType (chart : option ChartIdea)
  (fallback : option string) : option string :=
  match Js.as_truthy (chart ≫= chart_type) with
  | Some t => Some t
  | None =>
      let series :=
        Js.array_or_empty (Js.get (chart ≫= chart_option) "series") in
      let detected :=
        Js.get
          (Js.find (fun entry => Js.is_string (Js.get (Some entry) "type"))
                   series)
          "type" in
      match detected with
      | Some (Js.JStr t) => Some t
      | _ => fallback
      end
  end.

(** What [fallbackOptions[key]] can be: one of the sample
    configurations, or a member inherited from [Object.prototype]. *)
Inductive OptionValue : Type :=
| Config : Js.Json -> OptionValue
| Inherited : string -> OptionValue.

(** [key in fallbackOptions ? fallbackOptions[key] : undefined] *)
Definition fallbackOption_for (key : string) : option OptionValue :=
  match Js.assoc key fallbackOptions with
  | Some config => Some (Config config)
  | None =>
      if existsb (String.eqb key) Js.object_prototype_names
      then Some (Inherited key)
      else None
  end.

(** The body of a card: the chart with the configuration handed to the
    chart library, the sample layout of a kind, or the waiting text. *)
Inductive Body : Type :=
| ChartBody : string -> string -> OptionValue -> Body
| SampleBody : string -> OptionValue -> Body
| PlaceholderBody : string -> Body.

(** A rendered card: the number after "Chart", the type badge when
    there is one, and the body. *)
Record Card : Type := {
  slot_number : nat;
  type_badge : option string;
  body : Body
}.

Definition ChartCard (chart : option ChartIdea) (index : nat)
  (expectedType : option string) : Card :=
  let displayType :=
    getDisplayType chart (Js.toUpperCase <$> Js.as_truthy expectedType) in
  let normalizedExpected := Js.toLowerCase <$> Js.as_truthy expectedType in
  let fallbackOption :=
    Js.as_truthy normalizedExpected ≫= fallbackOption_for in
  let chartOption :=
    match chart ≫= chart_option with
    | Some o => if Js.truthy_json o && Js.has_keys o then Some o else None
    | None => None
    end in
  let optionToRender :=
    match chartOption with
    | Some o => Some (Config o)
    | None => fallbackOption
    end in
  {| slot_number := index + 1;
     type_badge := Js.as_truthy displayType;
     body :=
       match chart with
       | Some c =>
           ChartBody (title c) (description c)
                     (default (Config (Js.JObj [])) optionToRender)
       | None =>
           match optionToRender with
           | Some o =>
               SampleBody (default "" (Js.toUpperCase <$> expectedType)) o
           | None =>
               PlaceholderBody
                 (match Js.as_truthy expectedType with
                  | Some t =>
                      "Waiting for a " +:+ Js.toUpperCase t
                        +:+ " idea. Ask the agent to craft one."
                  | None =>
                      "No chart here yet. Ask the agent for another visualization idea."
                  end)
           end
       end |}.

End ChartCard.

(** ** components/ChartGrid.tsx *)

Module ChartGrid.

Record PreferredSlot : Type := {
  expectedType : option string;
  label : string
}.

Definition preferredSlots : list PreferredSlot :=
  [ {| expectedType := Some "bar"; label := "Bar chart" |};
    {| expectedType := Some "line"; label := "Line chart" |};
    {| expectedType := Some "pie"; label := "Pie chart" |} ].

Definition normalizeType (chart : option ChartIdea) : string :=
  match chart with
  | None => ""
  | Some c =>
      match Js.as_truthy (chart_type c) with
      | Some t => Js.toLowerCase t
      | None =>
        let series :=
          Js.array_or_empty (Js.get (chart_option c) "series") in
        let firstType :=
          Js.get
            (Js.find (fun entry => Js.is_string (Js.get (Some entry) "type"))
                     series)
            "type" in
        match firstType with
        | Some (Js.JStr t) => Js.toLowerCase t
        | _ => ""
        end
      end
  end.

(** [normalizeType] over the lower-casing method.
    [String.prototype.toLowerCase] belongs to the language, not to this
    repository, so it is a parameter here: what is proved of
    [normalizeTypeWith toLowerCase] for every [toLowerCase] holds of the
    code whatever the method does to a string.  [normalizeType] is the
    instance at [Js.toLowerCase]. *)
Definition normalizeTypeWith (toLowerCase : string -> string)
  (chart : option ChartIdea) : string :=
  match chart with
  | None => ""
  | Some c =>
      match Js.as_truthy (chart_type c) with
      | Some t => toLowerCase t
      | None =>
        let series :=
          Js.array_or_empty (Js.get (chart_option c) "series") in
        let firstType :=
          Js.get
            (Js.find (fun entry => Js.is_string (Js.get (Some entry) "type"))
                     series)
            "type" in
        match firstType with
        | Some (Js.JStr t) => toLowerCase t
        | _ => ""
        end
      end
  end.

(** The loop [for (let i = remaining.length - 1; i >= 0; i -= 1)] of
    [claimChart]; [n] is [i + 1].  The result is the index at which the
    loop returns, if it does. *)
Fixpoint scan (expectedType : string) (remaining : list ChartIdea) (n : nat)
  : option nat :=
  match n with
  | O => None
  | S i =>
      if Js.includes (normalizeType (remaining !! i)) expectedType
      then Some i
      else scan expectedType remaining i
  end.

(** [claimChart] closes over the local array [remaining], which it
    mutates with [shift] and [splice]. *)
Definition claimChart (expectedType : option string)
  : State (list ChartIdea) (option ChartIdea) :=
  match Js.as_truthy expectedType with
  | None =>
      remaining ← read;
      modify (drop 1);;
      mret (head remaining)
  | Some expectedType =>
      remaining ← read;
      match scan expectedType remaining (length remaining) with
      | Some i =>
          modify (delete i);;
          mret (remaining !! i)
      | None => mret None
      end
  end.

Record Slot : Type := {
  chart : option ChartIdea;
  slot_expectedType : option string
}.

(** The [slots] array that the component renders, one [ChartCard] per
    entry and in this order. *)
Definition slots_from (charts : list ChartIdea)
  : list Slot * list ChartIdea :=
  let remaining := charts in
  mapM (fun slot =>
          c ← claimChart (expectedType slot);
          mret {| chart := c; slot_expectedType := expectedType slot |})
       preferredSlots remaining.

Definition ChartGrid (charts : list ChartIdea) : list Slot :=
  fst (slots_from charts).


End ChartGrid.

(** ** components/DataPreview.tsx *)

Module DataPreview.

Definition visiblePreview (preview : list PreviewRow) : list PreviewRow :=
  Js.slice0 8 preview.

(** What the component renders: the hint panel when there is no column,
    else the column cards and the table of the visible rows. *)
Inductive View : Type :=
| HintPanel : View
| ProfilePanel : list ColumnSummary -> list PreviewRow -> View.

Definition DataPreview (columns : list ColumnSummary)
  (preview : list PreviewRow) : View :=
  if (length columns =? 0)%nat
  then HintPanel
  else ProfilePanel columns (visiblePreview preview).

(** The preview rows that a view displays: those of its table; the
    hint panel has no table. *)
Definition displayed_rows (view : View) : list PreviewRow :=
  match view with
  | HintPanel => []
  | ProfilePanel _ rows => rows
  end.

End DataPreview.

(** ** components/ChartControls.tsx *)

Module ChartControls.

Record Props : Type := {
  disabled : bool;
  loading : bool
}.

(** The four [useState] cells of the form. *)
Record Form : Type := {
  f_chartType : ChartKind;
  f_groupBy : string;
  f_value : string;
  f_agg : ChartAggregation
}.

Definition requiresValue (f : Form) : bool :=
  match f_agg f with
  | count => false
  | _ => true
  end.

Definition ready (p : Props) (f : Form) : bool :=
  Js.truthy (f_groupBy f)
  && (negb (requiresValue f) || Js.truthy (f_value f))
  && negb (disabled p).

(** [handleSubmit]: the payload handed to [onBuild], if any. *)
Definition handleSubmit (f : Form) : option ManualChartRequest :=
  if negb (Js.truthy (f_groupBy f))
  then None
  else Some {| chartType := f_chartType f;
               groupBy := Some (f_groupBy f);
               value := if requiresValue f then Some (f_value f) else None;
               agg := Some (f_agg f) |}.

(** The build button has [disabled={!ready || loading}] and
    [onClick={handleSubmit}]; a disabled button does not run its click
    handler. *)
Definition buttonDisabled (p : Props) (f : Form) : bool :=
  negb (ready p f) || loading p.

Definition clickBuild (p : Props) (f : Form) : option ManualChartRequest :=
  if buttonDisabled p f then None else handleSubmit f.

Definition isNumeric (dtype : string) : bool :=
  existsb (Js.includes (Js.toLowerCase dtype))
          ["int"; "float"; "double"; "decimal"; "number"].

Definition groupableColumns (columns : list ColumnSummary) : list string :=
  map name columns.

Definition numericColumns (columns : list ColumnSummary) : list string :=
  map name (List.filter (fun col => isNumeric (dtype col)) columns).

(** The two effects of the component, run once after a render of the
    form in state [f]: the first sets the grouping column, the second
    the value column. *)
Definition runEffects (columns : list ColumnSummary) (f : Form) : Form :=
  let groupBy' :=
    match groupableColumns columns with
    | first :: _ => if negb (Js.truthy (f_groupBy f)) then first
                    else f_groupBy f
    | [] => f_groupBy f
    end in
  let value' :=
    match numericColumns columns with
    | first :: _ =>
        if negb (Js.truthy (f_value f)) && requiresValue f then first
        else f_value f
    | [] => f_value f
    end in
  let value'' := if requiresValue f then value' else "" in
  {| f_chartType := f_chartType f; f_groupBy := groupBy';
     f_value := value''; f_agg := f_agg f |}.

End ChartControls.

(** ** components/ChatPanel.tsx *)

Module ChatPanel.

Record Props : Type := {
  disabled : bool;
  loading : bool
}.

(** [handleSubmit] with the text field holding [input]: the message
    handed to [onSend], if any, and the content of the text field
    afterwards.  [trim] is [String.prototype.trim], a method of the
    language and a parameter here. *)
Definition handleSubmit (trim : string -> string) (p : Props)
  (input : string) : option string * string :=
  if negb (Js.truthy (trim input)) || disabled p || loading p
  then (None, input)
  else (Some (trim input), "").

End ChatPanel.

(** ** App.tsx *)

Module App.

(** The browser's [File]: its name and its bytes. *)
Record File : Type := {
  file_name : string;
  file_bytes : list ascii
}.

(** The [useState] cells of the component. *)
Record AppState : Type := {
  sessionId : option string;
  columns : list ColumnSummary;
  preview : list PreviewRow;
  charts : list ChartIdea;
  history : list Message;
  uploading : bool;
  chatLoading : bool;
  manualLoading : bool;
  status : string;
  error : option string
}.

Definition initial : AppState :=
  {| sessionId := None; columns := []; preview := []; charts := [];
     history := []; uploading := false; chatLoading := false;
     manualLoading := false; status := "Upload a dataset to begin.";
     error := None |}.

(** A call that reached one of the functions of [./api]. *)
Inductive Request : Type :=
| UploadRequest : File -> Request
| ChatRequest : string -> string -> Request
| ManualRequest : string -> ManualChartRequest -> Request.

(** The component state, the requests sent so far (oldest first) and
    what was written with [console.error]. *)
Record World : Type := {
  app : AppState;
  requests : list Request;
  console : list Js.Thrown
}.

Definition on_app (f : AppState -> AppState) : State World unit :=
  modify (fun w => {| app := f (app w); requests := requests w;
                      console := console w |}).

Definition setSessionId (v : option string) : State World unit :=
  on_app (fun s =>
    {| sessionId := v; columns := columns s; preview := preview s;
       charts := charts s; history := history s; uploading := uploading s;
       chatLoading := chatLoading s; manualLoading := manualLoading s;
       status := status s; error := error s |}).

Definition setColumns (v : list ColumnSummary) : State World unit :=
  on_app (fun s =>
    {| sessionId := sessionId s; columns := v; preview := preview s;
       charts := charts s; history := history s; uploading := uploading s;
       chatLoading := chatLoading s; manualLoading := manualLoading s;
       status := status s; error := error s |}).

Definition setPreview (v : list PreviewRow) : State World unit :=
  on_app (fun s =>
    {| sessionId := sessionId s; columns := columns s; preview := v;
       charts := charts s; history := history s; uploading := uploading s;
       chatLoading := chatLoading s; manualLoading := manualLoading s;
       status := status s; error := error s |}).

Definition setCharts (v : list ChartIdea) : State World unit :=
  on_app (fun s =>
    {| sessionId := sessionId s; columns := columns s; preview := preview s;
       charts := v; history := history s; uploading := uploading s;
       chatLoading := chatLoading s; manualLoading := manualLoading s;
       status := status s; error := error s |}).

(** [setHistory] in its updater form, [setHistory((prev) => f(prev))];
    [setHistory(v)] is [setHistory (fun _ => v)]. *)
Definition setHistory (f : list Message -> list Message)
  : State World unit :=
  on_app (fun s =>
    {| sessionId := sessionId s; columns := columns s; preview := preview s;
       charts := charts s; history := f (history s);
       uploading := uploading s; chatLoading := chatLoading s;
       manualLoading := manualLoading s; status := status s;
       error := error s |}).

Definition setUploading (v : bool) : State World unit :=
  on_app (fun s =>
    {| sessionId := sessionId s; columns := columns s; preview := preview s;
       charts := charts s; history := history s; uploading := v;
       chatLoading := chatLoading s; manualLoading := manualLoading s;
       status := status s; error := error s |}).

Definition setChatLoading (v : bool) : State World unit :=
  on_app (fun s =>
    {| sessionId := sessionId s; columns := columns s; preview := preview s;
       charts := charts s; history := history s; uploading := uploading s;
       chatLoading := v; manualLoading := manualLoading s;
       status := status s; error := error s |}).

Definition setManualLoading (v : bool) : State World unit :=
  on_app (fun s =>
    {| sessionId := sessionId s; columns := columns s; preview := preview s;
       charts := charts s; history := history s; uploading := uploading s;
       chatLoading := chatLoading s; manualLoading := v;
       status := status s; error := error s |}).

Definition setStatus (v : string) : State World unit :=
  on_app (fun s =>
    {| sessionId := sessionId s; columns := columns s; preview := preview s;
       charts := charts s; history := history s; uploading := uploading s;
       chatLoading := chatLoading s; manualLoading := manualLoading s;
       status := v; error := error s |}).

Definition setError (v : option string) : State World unit :=
  on_app (fun s =>
    {| sessionId := sessionId s; columns := columns s; preview := preview s;
       charts := charts s; history := history s; uploading := uploading s;
       chatLoading := chatLoading s; manualLoading := manualLoading s;
       status := status s; error := v |}).

Definition console_error (err : Js.Thrown) : State World unit :=
  modify (fun w => {| app := app w; requests := requests w;
                      console := console w ++ [err] |}).

(** [await call]: the request is logged and the handler resumes with
    the outcome of the call. *)
Definition await {A : Type} (r : Request) (outcome : Js.Outcome A)
  : State World (Js.Outcome A) :=
  modify (fun w => {| app := app w; requests := requests w ++ [r];
                      console := console w |});;
  mret outcome.

(** [const hasDataset = Boolean(sessionId)] *)
Definition hasDataset (s : AppState) : bool := Js.truthy_opt (sessionId s).

Section Handlers.

(** The functions imported from [./api]. *)
Variable uploadDataset : File -> Js.Outcome UploadResponse.
Variable sendChat : string -> string -> Js.Outcome ChatResponse.
Variable buildManualChart :
  string -> ManualChartRequest -> Js.Outcome ManualChartResponse.

Definition handleUpload (file : File) : State World unit :=
  setUploading true;;
  setError None;;
  setStatus "Uploading dataset...";;
  settled ← await (UploadRequest file) (uploadDataset file);
  match settled with
  | Js.Resolved result =>
      setSessionId (Some (up_sessionId result));;
      setColumns (up_columns result);;
      setPreview (up_preview result);;
      setCharts [];;
      setHistory (fun _ => []);;
      setStatus "Dataset loaded. Ask the agent for insights."
  | Js.Rejected err =>
      console_error err;;
      setError (Some (Js.message_or err "Failed to upload dataset."));;
      setStatus "Upload failed. Please try another file."
  end;;
  setUploading false.

Definition handleSendMessage (message : string) : State World unit :=
  w ← read;
  match Js.as_truthy (sessionId (app w)) with
  | None => setError (Some "Upload a dataset before chatting with the agent.")
  | Some sessionId =>
      setChatLoading true;;
      setError None;;
      setStatus "Agent is exploring the dataset...";;
      let userMessage := {| role := user; content := message |} in
      setHistory (fun prev => prev ++ [userMessage]);;
      settled ← await (ChatRequest sessionId message)
                       (sendChat sessionId message);
      match settled with
      | Js.Resolved response =>
          setCharts (default [] (chat_charts response));;
          setHistory (fun _ => default [] (chat_history response));;
          setStatus "Charts updated. Ask another question to refine."
      | Js.Rejected err =>
          console_error err;;
          setHistory (fun prev => Js.slice0 (-1) prev);;
          setError (Some (Js.message_or err "Chat request failed."));;
          setStatus "Agent error. Try sending your message again."
      end;;
      setChatLoading false
  end.

Definition handleBuildManualChart (payload : ManualChartRequest)
  : State World unit :=
  w ← read;
  match Js.as_truthy (sessionId (app w)) with
  | None => setError (Some "Upload a dataset before building charts.")
  | Some sessionId =>
      setManualLoading true;;
      setError None;;
      setStatus "Building chart from your columns...";;
      settled ← await (ManualRequest sessionId payload)
                       (buildManualChart sessionId payload);
      match settled with
      | Js.Resolved response =>
          setCharts (default [] (manual_charts response));;
          setStatus (default "Chart updated." (manual_message response))
      | Js.Rejected err =>
          console_error err;;
          setError
            (Some (Js.message_or err "Failed to build manual chart."));;
          setStatus "Manual chart failed. Adjust selections and retry."
      end;;
      setManualLoading false
  end.

(** The render wires [ChartControls] with [disabled={!hasDataset}],
    [loading={manualLoading}] and [onBuild={handleBuildManualChart}]:
    a click on the build button of the form in state [f]. *)
Definition controlsProps (s : AppState) : ChartControls.Props :=
  {| ChartControls.disabled := negb (hasDataset s);
     ChartControls.loading := manualLoading s |}.

Definition clickBuildChart (f : ChartControls.Form) : State World unit :=
  w ← read;
  match ChartControls.clickBuild (controlsProps (app w)) f with
  | None => mret tt
  | Some payload => handleBuildManualChart payload
  end.

(** The render wires [ChatPanel] with [disabled={!hasDataset}],
    [loading={chatLoading}] and [onSend={handleSendMessage}]: the form
    of the panel is submitted with [input] in its text field; the
    result is the content of the text field afterwards. *)
Definition chatProps (s : AppState) : ChatPanel.Props :=
  {| ChatPanel.disabled := negb (hasDataset s);
     ChatPanel.loading := chatLoading s |}.

Definition submitChat (trim : string -> string) (input : string)
  : State World string :=
  w ← read;
  match ChatPanel.handleSubmit trim (chatProps (app w)) input with
  | (Some message, input') => handleSendMessage message;; mret input'
  | (None, input') => mret input'
  end.

(** [UploadPanel] is wired with [onUpload={handleUpload}] and its file
    input has [disabled={uploading}]: the change event of the input
    with the selection [files] (null when there is none), handled by
    [handleFileChange], which reads [event.target.files?.[0]]. *)
Definition changeFile (files : option (list File)) : State World unit :=
  w ← read;
  if uploading (app w) then mret tt
  else
    match files ≫= head with
    | Some file => handleUpload file
    | None => mret tt
    end.

End Handlers.

(** The render passes [columns] and [preview] to [DataPreview]. *)
Definition renderDataPreview (s : AppState) : DataPreview.View :=
  DataPreview.DataPreview (columns s) (preview s).

(** The render passes [charts] to [ChartGrid]. *)
Definition renderChartGrid (s : AppState) : list ChartGrid.Slot :=
  ChartGrid.ChartGrid (charts s).

(** The world after running a handler. *)
Definition exec {A : Type} (m : State World A) (w : World) : World :=
  snd (m w).

(** [helperText]: the error when there is one, else the status. *)
Definition helperText (s : AppState) : string :=
  match Js.as_truthy (error s) with
  | Some e => e
  | None => status s
  end.

End App.

(** ** api.ts *)

Module Api.

(** What the handlers read of a [Response]: the [ok] flag, the status
    code, and the promises of [text()] and of [json()], the latter
    typed by the cast of [handleResponse]. *)
Record Response (T : Type) : Type := {
  ok : bool;
  status : nat;
  text : Js.Outcome string;
  json : Js.Outcome T
}.

Arguments ok {T} _.
Arguments status {T} _.
Arguments text {T} _.
Arguments json {T} _.

(** The body of a request: a form with its entries, or the JSON value
    that [JSON.stringify] wrote. *)
Inductive Body : Type :=
| FormData : list (string * App.File) -> Body
| JsonBody : Js.Json -> Body.

Record RequestInit : Type := {
  method : string;
  headers : list (string * string);
  body : Body
}.

(** The JSON of an upload response as the back end names its fields. *)
Record UploadData : Type := {
  session_id : string;
  data_columns : option (list ColumnSummary);
  data_preview : option (list PreviewRow)
}.

Definition kind_name (k : ChartKind) : string :=
  match k with
  | bar => "bar"
  | line => "line"
  | pie => "pie"
  end.

Definition agg_name (a : ChartAggregation) : string :=
  match a with
  | count => "count"
  | sum => "sum"
  | mean => "mean"
  end.

Definition handleResponse {T : Type} (response : Response T)
  : Js.Outcome T :=
  if negb (ok response)
  then
    text ← text response;
    Js.Rejected
      (Js.ErrorObject
         (if Js.truthy text then text
          else "Request failed with status " +:+ pretty (status response)))
  else json response.

(** The [fetch] of the browser.  The calls read the response at the
    type that [handleResponse<T>] casts its JSON to, so there is one
    [fetch] for each type of response. *)
Class Fetch (T : Type) : Type :=
  fetch : string → RequestInit → Js.Outcome (Response T).

Section Calls.

(** [import.meta.env.VITE_API_BASE_URL] and the [fetch] of the
    browser at the three types of response. *)
Variable VITE_API_BASE_URL : option string.
Context (fetchUpload : Fetch UploadData).
Context (fetchChat : Fetch ChatResponse).
Context (fetchManual : Fetch ManualChartResponse).

Definition API_BASE_URL : string :=
  default "http://localhost:8000"
          (Js.strip_trailing_slash <$> VITE_API_BASE_URL).

Definition uploadDataset (file : App.File) : Js.Outcome UploadResponse :=
  let formData := [("file", file)] in
  response ← @fetch UploadData _ (API_BASE_URL +:+ "/upload")
                   {| method := "POST"; headers := [];
                      body := FormData formData |};
  data ← handleResponse response;
  mret {| up_sessionId := session_id data;
          up_columns := default [] (data_columns data);
          up_preview := default [] (data_preview data) |}.

Definition chatBody (sessionId message : string) : Js.Json :=
  Js.stringify_object
    [ ("session_id", Some (Js.JStr sessionId));
      ("message", Some (Js.JStr message)) ].

Definition sendChat (sessionId message : string)
  : Js.Outcome ChatResponse :=
  response ← @fetch ChatResponse _ (API_BASE_URL +:+ "/chat")
                   {| method := "POST";
                      headers := [("Content-Type", "application/json")];
                      body := JsonBody (chatBody sessionId message) |};
  handleResponse response.

Definition manualBody (sessionId : string) (payload : ManualChartRequest)
  : Js.Json :=
  Js.stringify_object
    [ ("session_id", Some (Js.JStr sessionId));
      ("chart_type", Some (Js.JStr (kind_name (chartType payload))));
      ("group_by", Js.JStr <$> groupBy payload);
      ("value", Js.JStr <$> value payload);
      ("agg", Js.JStr ∘ agg_name <$> agg payload) ].

Definition buildManualChart (sessionId : string)
  (payload : ManualChartRequest) : Js.Outcome ManualChartResponse :=
  response ← @fetch ManualChartResponse _
                   (API_BASE_URL +:+ "/chart/manual")
                   {| method := "POST";
                      headers := [("Content-Type", "application/json")];
                      body := JsonBody (manualBody sessionId payload) |};
  handleResponse response.

End Calls.

End Api.

(** ** Vocabulary of the statements *)

Module Kind.

(** A chart matches an expected kind when its resolved kind contains the
    expected kind as a substring. *)
Definition matches (expected : string) (c : ChartIdea) : bool :=
  Js.includes (ChartGrid.normalizeType (Some c)) expected.

(** [claimed] and [rest] are what is left of the working list [l] once
    its last entry that matches [expected] has been claimed: that entry
    is taken out and the others keep their order; when no entry
    matches, nothing is claimed and the list is as it was. *)
Definition ClaimsLast (expected : string) (l : list ChartIdea)
  (claimed : option ChartIdea) (rest : list ChartIdea) : Prop :=
  match claimed with
  | Some c =>
      ∃ before after,
        l = before ++ c :: after ∧ rest = before ++ after ∧
        matches expected c = true ∧
        Forall (fun x => matches expected x = false) after
  | None => rest = l ∧ Forall (fun x => matches expected x = false) l
  end.

(** The [series] array of the configuration of a chart, if it has one. *)
Definition series_of (c : ChartIdea) : option (list Js.Json) :=
  match chart_option c with
  | Some (Js.JObj fields) =>
      match Js.assoc "series" fields with
      | Some (Js.JArr items) => Some items
      | _ => None
      end
  | _ => None
  end.

(** The [type] field of a series entry, when the entry is an object that
    has one and it is a string. *)
Definition string_type (entry : Js.Json) : option string :=
  match entry with
  | Js.JObj fields =>
      match Js.assoc "type" fields with
      | Some (Js.JStr t) => Some t
      | _ => None
      end
  | _ => None
  end.

End Kind.

(** ** Sample data *)

Module Sample.

Definition chart (t : string) (kind : option string)
  (config : option Js.Json) : ChartIdea :=
  {| title := t; description := ""; chart_type := kind;
     chart_option := config |}.

Definition series (entries : list Js.Json) : option Js.Json :=
  Some (Js.JObj [("series", Js.JArr entries)]).

Definition typed (t : string) : Js.Json :=
  Js.JObj [("name", Js.JStr "Value"); ("type", Js.JStr t)].

(** A chart whose [chart_type] is the empty string and whose first
    series is a bar series. *)
Definition blank_kind_bar : ChartIdea :=
  chart "Sales" (Some "") (series [typed "bar"]).

Definition row (n : Z) : PreviewRow := [("id", Js.JNum n)].

Definition region : ColumnSummary :=
  {| name := "region"; dtype := "object"; non_null := 3;
     sample_values := [Js.JStr "north"] |}.

Definition csv : App.File :=
  {| App.file_name := "sales.csv"; App.file_bytes := [] |}.

Definition hello : Message := {| role := user; content := "hello" |}.

(** A world with a live session, one chart and one transcript entry. *)
Definition live : App.World :=
  {| App.app :=
       {| App.sessionId := Some "s1"; App.columns := [region];
          App.preview := [row 1]; App.charts := [chart "old" (Some "pie") None];
          App.history := [hello]; App.uploading := false;
          App.chatLoading := false; App.manualLoading := false;
          App.status := "Dataset loaded. Ask the agent for insights.";
          App.error := None |};
     App.requests := [];
     App.console := [] |}.

(** A request to sum values per region that names no value column. *)
Definition sum_without_value : ManualChartRequest :=
  {| chartType := bar; groupBy := Some "region"; value := None;
     agg := Some sum |}.

Definition built : ManualChartResponse :=
  {| manual_message := Some "Chart ready.";
     manual_chart := Some (chart "Sum by region" (Some "bar") None);
     manual_charts := Some [chart "Sum by region" (Some "bar") None] |}.

(** The manual chart form with aggregation sum and no value column, and
    with aggregation count. *)
Definition form_sum_blank : ChartControls.Form :=
  {| ChartControls.f_chartType := bar; ChartControls.f_groupBy := "region";
     ChartControls.f_value := ""; ChartControls.f_agg := sum |}.

Definition form_count : ChartControls.Form :=
  {| ChartControls.f_chartType := pie; ChartControls.f_groupBy := "region";
     ChartControls.f_value := ""; ChartControls.f_agg := count |}.

Definition uploaded : UploadResponse :=
  {| up_sessionId := "s2"; up_columns := [region];
     up_preview := map row [1; 2; 3; 4; 5; 6; 7; 8; 9; 10]%Z |}.

Definition answer : Message :=
  {| role := assistant; content := "Here is a line chart." |}.

Definition answered : ChatResponse :=
  {| reply := "Here is a line chart.";
     chat_charts := Some [chart "Trend" (Some "line") None];
     chat_history := Some [hello; answer] |}.

Definition offline : Js.Thrown := Js.ErrorObject "Network Error".

(** Collaborators that always give the same outcome. *)
Definition upload_ok (_ : App.File) : Js.Outcome UploadResponse :=
  Js.Resolved uploaded.

Definition upload_down (_ : App.File) : Js.Outcome UploadResponse :=
  Js.Rejected offline.

Definition chat_ok (_ _ : string) : Js.Outcome ChatResponse :=
  Js.Resolved answered.

Definition chat_down (_ _ : string) : Js.Outcome ChatResponse :=
  Js.Rejected offline.

Definition chat_bare (_ _ : string) : Js.Outcome ChatResponse :=
  Js.Resolved {| reply := "ok"; chat_charts := None;
                 chat_history := None |}.

Definition build_ok (_ : string) (_ : ManualChartRequest)
  : Js.Outcome ManualChartResponse :=
  Js.Resolved built.

Definition build_down (_ : string) (_ : ManualChartRequest)
  : Js.Outcome ManualChartResponse :=
  Js.Rejected offline.

Definition build_bare (_ : string) (_ : ManualChartRequest)
  : Js.Outcome ManualChartResponse :=
  Js.Resolved {| manual_message := None; manual_chart := None;
                 manual_charts := None |}.

(** A stand-in for [String.prototype.trim] in the examples.  It strips
    the ASCII white space only (tab, line feed, vertical tab, form
    feed, carriage return, space); the method of the language strips
    the other Unicode spaces too, so the statements take the method as
    a parameter and this function is only one instance of it. *)
Definition is_space (c : ascii) : bool :=
  let n := nat_of_ascii c in
  ((9 <=? n)%nat && (n <=? 13)%nat) || (n =? 32)%nat.

Fixpoint trimStart (s : string) : string :=
  match s with
  | EmptyString => EmptyString
  | String c s' => if is_space c then trimStart s' else s
  end.

Fixpoint trimEnd (s : string) : string :=
  match s with
  | EmptyString => EmptyString
  | String c s' =>
      match trimEnd s' with
      | EmptyString => if is_space c then EmptyString else String c EmptyString
      | t => String c t
      end
  end.

Definition trim (s : string) : string := trimEnd (trimStart s).

(** A world in which no dataset was uploaded yet. *)
Definition fresh : App.World :=
  {| App.app := App.initial; App.requests := []; App.console := [] |}.

Definition lines : ChartIdea := chart "Trend" (Some "Line") None.
Definition bars : ChartIdea := chart "Totals" (Some "bar") None.
Definition slices : ChartIdea := chart "Shares" None (series [typed "pie"]).

(** A back end that answers uploads with status 500 and no body, and
    chats with status 400 and a body. *)
Definition upload_500 : Api.Fetch Api.UploadData :=
  fun _ _ =>
    Js.Resolved
      {| Api.ok := false; Api.status := 500; Api.text := Js.Resolved "";
         Api.json := Js.Rejected (Js.ErrorObject "Unexpected end of input") |}.

Definition chat_400 : Api.Fetch ChatResponse :=
  fun _ _ =>
    Js.Resolved
      {| Api.ok := false; Api.status := 400;
         Api.text := Js.Resolved "Unknown session";
         Api.json := Js.Rejected (Js.ErrorObject "Unexpected token") |}.

(** An upload response with a session and preview rows but no column
    summaries. *)
Definition bare_upload : Api.UploadData :=
  {| Api.session_id := "s3"; Api.data_columns := None;
     Api.data_preview := Some [row 1; row 2] |}.

Definition upload_bare : Api.Fetch Api.UploadData :=
  fun _ _ =>
    Js.Resolved
      {| Api.ok := true; Api.status := 200;
         Api.text := Js.Resolved "";
         Api.json := Js.Resolved bare_upload |}.

Definition amount : ColumnSummary :=
  {| name := "amount"; dtype := "Float64"; non_null := 3;
     sample_values := [Js.JNum 1] |}.

Definition blank_form : ChartControls.Form :=
  {| ChartControls.f_chartType := bar; ChartControls.f_groupBy := "";
     ChartControls.f_value := ""; ChartControls.f_agg := mean |}.

Definition enabled : ChartControls.Props :=
  {| ChartControls.disabled := false; ChartControls.loading := false |}.

End Sample.

(** ** Vocabulary of the further statements *)

Module Layout.

(** The charts that a list of slots shows, in slot order. *)
Definition shown (slots : list ChartGrid.Slot) : list ChartIdea :=
  omap ChartGrid.chart slots.

(** The chart in the slot at position [n], if the slot holds one. *)
Definition slot_chart (n : nat) (slots : list ChartGrid.Slot)
  : option ChartIdea :=
  slots !! n ≫= ChartGrid.chart.

(** A slot that holds a chart holds one that matches its kind. *)
Definition well_placed (slot : ChartGrid.Slot) : Prop :=
  match ChartGrid.chart slot, ChartGrid.slot_expectedType slot with
  | Some c, Some kind => Kind.matches kind c = true
  | _, _ => True
  end.



End Layout.

(** Relations between the state before and after a handler. *)
Module Frame.

(** The session is the same: identifier, column summaries, preview. *)
Definition same_session (s s' : App.AppState) : Prop :=
  App.sessionId s' = App.sessionId s ∧
  App.columns s' = App.columns s ∧
  App.preview s' = App.preview s.

(** The session, the chart collection and the transcript are the
    same. *)
Definition same_data (s s' : App.AppState) : Prop :=
  same_session s s' ∧
  App.charts s' = App.charts s ∧
  App.history s' = App.history s.

(** Nothing but the error message differs between [w] and [w']. *)
Definition only_error_set (w w' : App.World) (message : string) : Prop :=
  same_data (App.app w) (App.app w') ∧
  App.uploading (App.app w') = App.uploading (App.app w) ∧
  App.chatLoading (App.app w') = App.chatLoading (App.app w) ∧
  App.manualLoading (App.app w') = App.manualLoading (App.app w) ∧
  App.status (App.app w') = App.status (App.app w) ∧
  App.error (App.app w') = Some message ∧
  App.requests w' = App.requests w ∧
  App.console w' = App.console w.

(** The line under the header after a call that was rejected with
    [err]: the message of the error, or the text of the handler for a
    thrown value that is no [Error]; when that is the empty string, the
    status of the handler instead. *)
Definition failure_line (err : Js.Thrown) (fallback status : string)
  : string :=
  if Js.truthy (Js.message_or err fallback)
  then Js.message_or err fallback
  else status.

(** The message of the error that [handleResponse] throws for a
    response that is not ok, with body [body] and status [code]. *)
Definition http_error_message (body : string) (code : nat) : string :=
  if Js.truthy body then body
  else "Request failed with status " +:+ pretty code.

End Frame.

(** * Properties *)

(** ** JavaScript primitives *)

Lemma append_cons (a : ascii) (t post : string) :
  (String a t +:+ post) = String a (t +:+ post).
Proof. reflexivity. Qed.

Lemma prefix_true_iff (t s : string) :
  String.prefix t s = true ↔ ∃ post, s = t +:+ post.
Proof.
  revert s. induction t as [|a t IH]; intros s; simpl.
  - destruct s; split; eauto.
  - destruct s as [|b s].
    + split; [discriminate | intros [post H]; discriminate].
    + simpl. setoid_rewrite append_cons.
      destruct (ascii_dec a b) as [->|Hne].
      * rewrite IH. split; intros [post H]; exists post; congruence.
      * split; [discriminate | intros [post H]; congruence].
Qed.

(** [includes] holds exactly when the text occurs somewhere in the
    string. *)
Lemma includes_true_iff (s t : string) :
  Js.includes s t = true ↔ ∃ pre post, s = pre +:+ t +:+ post.
Proof.
  induction s as [|a s IH].
  - cbn [Js.includes]. rewrite orb_false_r, prefix_true_iff. split.
    + intros [post H]. exists "", post. exact H.
    + intros ([|b pre] & post & H); [eauto | discriminate].
  - cbn [Js.includes]. rewrite orb_true_iff, prefix_true_iff, IH. split.
    + intros [[post H] | (pre & post & H)].
      * exists "", post. exact H.
      * exists (String a pre), post. rewrite append_cons. congruence.
    + intros ([|b pre] & post & H).
      * left. eauto.
      * right. exists pre, post. rewrite append_cons in H. congruence.
Qed.

Lemma slice0_8 {A : Type} (l : list A) : Js.slice0 8 l = take 8 l.
Proof.
  unfold Js.slice0. simpl.
  destruct (decide (length l < 8)) as [Hlt | Hge].
  - rewrite !take_ge by lia. reflexivity.
  - f_equal. lia.
Qed.

(** [slice(0, -1)] drops the last element, and only that one. *)
Lemma slice0_pop_push {A : Type} (l : list A) (x : A) :
  Js.slice0 (-1) (l ++ [x]) = l.
Proof.
  unfold Js.slice0. simpl. rewrite length_app. simpl.
  replace (Z.to_nat _) with (length l) by lia.
  apply take_app_length.
Qed.

(** ** The slot assignment of the chart grid *)

Section Claiming.

Import ChartGrid Kind.

Variable expected : string.

(** The loop returns at the largest index below [n] whose entry
    matches. *)
Lemma scan_Some (l : list ChartIdea) (n i : nat) :
  scan expected l n = Some i →
  i < n ∧ Js.includes (normalizeType (l !! i)) expected = true ∧
  ∀ j, i < j < n → Js.includes (normalizeType (l !! j)) expected = false.
Proof.
  induction n as [|n IH]; simpl; [discriminate|].
  destruct (Js.includes (normalizeType (l !! n)) expected) eqn:Hn.
  - intros [= <-]. split; [lia|]. split; [exact Hn|]. intros j Hj. lia.
  - intros Hscan. destruct (IH Hscan) as (Hlt & Hi & Hafter).
    split; [lia|]. split; [exact Hi|]. intros j Hj.
    destruct (decide (j = n)) as [->|Hne]; [exact Hn|]. apply Hafter. lia.
Qed.

Lemma scan_None (l : list ChartIdea) (n : nat) :
  scan expected l n = None →
  ∀ j, j < n → Js.includes (normalizeType (l !! j)) expected = false.
Proof.
  induction n as [|n IH]; simpl; [intros _ j Hj; lia|].
  destruct (Js.includes (normalizeType (l !! n)) expected) eqn:Hn;
    [discriminate|].
  intros Hscan j Hj.
  destruct (decide (j = n)) as [->|Hne]; [exact Hn|]. apply IH; [done|lia].
Qed.

(** The loop always returns: it finds an index exactly when some entry
    matches. *)
Lemma scan_finds (l : list ChartIdea) :
  is_Some (scan expected l (length l)) ↔
  Exists (fun x => matches expected x = true) l.
Proof.
  rewrite Exists_exists. split.
  - intros [i Hi]. destruct (scan_Some _ _ _ Hi) as (Hlt & Hm & _).
    destruct (lookup_lt_is_Some_2 l i Hlt) as [c Hc].
    exists c. split; [by eapply list_elem_of_lookup_2|].
    unfold matches. by rewrite <- Hc.
  - intros (c & Hin & Hm). apply list_elem_of_lookup_1 in Hin as [j Hj].
    destruct (scan expected l (length l)) as [i|] eqn:Hscan; [eauto|].
    pose proof (scan_None _ _ Hscan j (lookup_lt_Some _ _ _ Hj)) as Hno.
    rewrite Hj in Hno. unfold matches in Hm. congruence.
Qed.

(** One call of [claimChart] with a non-empty expected kind claims the
    last matching entry of the working list. *)
Lemma claimChart_claims_last (l : list ChartIdea) :
  Js.truthy expected = true →
  ClaimsLast expected l (claimChart (Some expected) l).1
                        (claimChart (Some expected) l).2.
Proof.
  intros Htruthy. unfold claimChart. simpl. rewrite Htruthy.
  unfold mbind, state_bind, read, modify, mret, state_ret.
  destruct (scan expected l (length l)) as [i|] eqn:Hscan; simpl.
  - destruct (scan_Some _ _ _ Hscan) as (Hlt & Hm & Hafter).
    destruct (lookup_lt_is_Some_2 l i Hlt) as [c Hc]. rewrite Hc. simpl.
    exists (take i l), (drop (S i) l). split; [|split; [|split]].
    + symmetry. by apply take_drop_middle.
    + apply delete_take_drop.
    + unfold matches. by rewrite <- Hc.
    + apply Forall_lookup. intros k x Hk. rewrite lookup_drop in Hk.
      unfold matches. rewrite <- Hk. apply Hafter.
      split; [lia|]. by eapply lookup_lt_Some.
  - split; [reflexivity|]. apply Forall_lookup. intros k x Hk.
    unfold matches. rewrite <- Hk. eapply scan_None; [exact Hscan|].
    by eapply lookup_lt_Some.
Qed.

End Claiming.

(** C1.  The chart grid fills the slots bar, line, pie in this order.
    Each slot claims, from what the slots before it left of the chart
    collection, the last entry whose resolved kind contains the expected
    kind, and takes it out of the working list; a slot with no matching
    entry stays empty.  The grid is these three slots and nothing else,
    so entries that no slot claimed are not rendered.  For charts of
    kinds line, bar, bar in this order: the bar slot holds the third
    chart, the line slot holds the first, the pie slot is empty, and the
    second chart is the one left over. *)
Theorem slot_assignment_claims_last_match (charts : list ChartIdea) :
  (∃ c1 c2 c3 r1 r2 r3,
     ChartGrid.slots_from charts =
       ([ {| ChartGrid.chart := c1;
             ChartGrid.slot_expectedType := Some "bar" |};
          {| ChartGrid.chart := c2;
             ChartGrid.slot_expectedType := Some "line" |};
          {| ChartGrid.chart := c3;
             ChartGrid.slot_expectedType := Some "pie" |} ], r3) ∧
     ChartGrid.ChartGrid charts =
       [ {| ChartGrid.chart := c1;
            ChartGrid.slot_expectedType := Some "bar" |};
         {| ChartGrid.chart := c2;
            ChartGrid.slot_expectedType := Some "line" |};
         {| ChartGrid.chart := c3;
            ChartGrid.slot_expectedType := Some "pie" |} ] ∧
     Kind.ClaimsLast "bar" charts c1 r1 ∧
     Kind.ClaimsLast "line" r1 c2 r2 ∧
     Kind.ClaimsLast "pie" r2 c3 r3) ∧
  (∀ t1 t2 t3 d1 d2 d3 o1 o2 o3,
     let first := {| title := t1; description := d1;
                     chart_type := Some "line"; chart_option := o1 |} in
     let second := {| title := t2; description := d2;
                      chart_type := Some "bar"; chart_option := o2 |} in
     let third := {| title := t3; description := d3;
                     chart_type := Some "bar"; chart_option := o3 |} in
     ChartGrid.slots_from [first; second; third] =
       ([ {| ChartGrid.chart := Some third;
             ChartGrid.slot_expectedType := Some "bar" |};
          {| ChartGrid.chart := Some first;
             ChartGrid.slot_expectedType := Some "line" |};
          {| ChartGrid.chart := None;
             ChartGrid.slot_expectedType := Some "pie" |} ], [second])).
Proof.
  split; [|reflexivity].
  pose proof (claimChart_claims_last "bar" charts eq_refl) as H1.
  destruct (ChartGrid.claimChart (Some "bar") charts) as [c1 r1] eqn:E1.
  pose proof (claimChart_claims_last "line" r1 eq_refl) as H2.
  destruct (ChartGrid.claimChart (Some "line") r1) as [c2 r2] eqn:E2.
  pose proof (claimChart_claims_last "pie" r2 eq_refl) as H3.
  destruct (ChartGrid.claimChart (Some "pie") r2) as [c3 r3] eqn:E3.
  exists c1, c2, c3, r1, r2, r3.
  assert (ChartGrid.slots_from charts =
       ([ {| ChartGrid.chart := c1;
             ChartGrid.slot_expectedType := Some "bar" |};
          {| ChartGrid.chart := c2;
             ChartGrid.slot_expectedType := Some "line" |};
          {| ChartGrid.chart := c3;
             ChartGrid.slot_expectedType := Some "pie" |} ], r3)) as Hslots.
  { unfold ChartGrid.slots_from, ChartGrid.preferredSlots, mapM.
    unfold mbind, state_bind, mret, state_ret.
    cbn [ChartGrid.expectedType]. rewrite E1, E2, E3. reflexivity. }
  split; [exact Hslots|]. split; [|auto].
  unfold ChartGrid.ChartGrid. by rewrite Hslots.
Qed.

(** ** Kind resolution *)

Lemma as_truthy_Some (o : option string) (t : string) :
  Js.as_truthy o = Some t ↔ o = Some t ∧ t ≠ "".
Proof.
  destruct o as [[|a s]|]; simpl; split;
    try (intros [= <-]; split; [reflexivity | discriminate]);
    try discriminate; intros [[= <-] Hne]; [contradiction | reflexivity].
Qed.

Lemma as_truthy_None (o : option string) :
  Js.as_truthy o = None ↔ o = None ∨ o = Some "".
Proof.
  destruct o as [[|a s]|]; simpl; split; auto; try discriminate;
    intros [H | H]; discriminate.
Qed.

(** [find] skips the entries that fail the test. *)
Lemma find_first {A : Type} (p : A → bool) (before after : list A) (x : A) :
  Forall (fun y => p y = false) before → p x = true →
  Js.find p (before ++ x :: after) = Some x.
Proof.
  intros Hbefore Hx. induction Hbefore as [|y before Hy _ IH]; simpl.
  - by rewrite Hx.
  - by rewrite Hy.
Qed.

Lemma find_none {A : Type} (p : A → bool) (l : list A) :
  Forall (fun y => p y = false) l → Js.find p l = None.
Proof.
  intros Hl. induction Hl as [|y l Hy _ IH]; simpl; [done|]. by rewrite Hy.
Qed.

Lemma is_string_type (entry : Js.Json) :
  Js.is_string (Js.get (Some entry) "type") =
  bool_decide (is_Some (Kind.string_type entry)).
Proof.
  unfold Kind.string_type, Js.get.
  destruct entry as [| | | | |fields]; try reflexivity.
  destruct (Js.assoc "type" fields) as [[]|]; reflexivity.
Qed.

Lemma get_type_string (entry : Js.Json) (t : string) :
  Kind.string_type entry = Some t →
  Js.get (Some entry) "type" = Some (Js.JStr t).
Proof.
  unfold Kind.string_type, Js.get.
  destruct entry as [| | | | |fields]; try discriminate.
  destruct (Js.assoc "type" fields) as [[]|]; try discriminate.
  by intros [= ->].
Qed.

Lemma series_array (c : ChartIdea) :
  Js.array_or_empty (Js.get (chart_option c) "series") =
  default [] (Kind.series_of c).
Proof.
  unfold Kind.series_of, Js.get.
  destruct (chart_option c) as [[| | | | |fields]|]; try reflexivity.
  destruct (Js.assoc "series" fields) as [[]|]; reflexivity.
Qed.

(** [normalizeType] is [normalizeTypeWith] at the lower-casing of the
    model. *)
Lemma normalizeType_instance (chart : option ChartIdea) :
  ChartGrid.normalizeType chart
    = ChartGrid.normalizeTypeWith Js.toLowerCase chart.
Proof. reflexivity. Qed.

(** C2, as amended.  Whatever [String.prototype.toLowerCase] does to a
    string, the resolved kind of a chart is that method applied to its
    [chart_type] when the field is present and not the empty string.
    When [chart_type] is absent or empty, the resolved kind is the
    method applied to the [type] of the first entry of the [series]
    array of the configuration that carries a string [type]; it is the
    empty string when there is no [series] array or none of its entries
    carries a string [type]. *)
Theorem normalizeType_resolves_kind
  (toLowerCase : string → string) (c : ChartIdea) :
  (∀ t, chart_type c = Some t → t ≠ "" →
        ChartGrid.normalizeTypeWith toLowerCase (Some c) = toLowerCase t) ∧
  (chart_type c = None ∨ chart_type c = Some "" →
   (∀ before entry after t,
      Kind.series_of c = Some (before ++ entry :: after) →
      Forall (fun e => Kind.string_type e = None) before →
      Kind.string_type entry = Some t →
      ChartGrid.normalizeTypeWith toLowerCase (Some c) = toLowerCase t) ∧
   (Forall (fun e => Kind.string_type e = None)
           (default [] (Kind.series_of c)) →
    ChartGrid.normalizeTypeWith toLowerCase (Some c) = "")).
Proof.
  split.
  - intros t Ht Hne. unfold ChartGrid.normalizeTypeWith.
    by rewrite (proj2 (as_truthy_Some _ _) (conj Ht Hne)).
  - intros Habsent. unfold ChartGrid.normalizeTypeWith.
    rewrite (proj2 (as_truthy_None _) Habsent), series_array. split.
    + intros before entry after t -> Hbefore Hentry. cbn [default].
      rewrite (find_first _ before after entry).
      * by rewrite (get_type_string _ _ Hentry).
      * eapply Forall_impl; [exact Hbefore|]. intros e He. cbv beta in *.
        rewrite is_string_type, He. reflexivity.
      * rewrite is_string_type, Hentry. reflexivity.
    + intros Hnone. rewrite find_none; [reflexivity|].
      eapply Forall_impl; [exact Hnone|]. intros e He. cbv beta in *.
      rewrite is_string_type, He. reflexivity.
Qed.

(** The three cases of the resolution on sample charts, with the
    lower-casing of the model: a declared kind, a kind read from the
    second series entry (the first has no [type]), and no kind at
    all. *)
Lemma normalizeType_resolves_kind_witness :
  ChartGrid.normalizeType (Some (Sample.chart "a" (Some "Bar") None)) = "bar"
  ∧ ChartGrid.normalizeType
      (Some (Sample.chart "b" None
               (Sample.series [Js.JObj [("name", Js.JStr "x")];
                               Sample.typed "LINE"; Sample.typed "pie"])))
    = "line"
  ∧ ChartGrid.normalizeType
      (Some (Sample.chart "c" None
               (Sample.series [Js.JObj [("type", Js.JNum 3)]; Js.JNull])))
    = "".
Proof.
  split; [|split].
  - apply (proj1 (normalizeType_resolves_kind Js.toLowerCase
                    (Sample.chart "a" (Some "Bar") None)) "Bar");
      [reflexivity | discriminate].
  - apply (proj1 (proj2 (normalizeType_resolves_kind Js.toLowerCase
                    (Sample.chart "b" None
                       (Sample.series [Js.JObj [("name", Js.JStr "x")];
                                       Sample.typed "LINE";
                                       Sample.typed "pie"])))
                    (or_introl eq_refl))
             [Js.JObj [("name", Js.JStr "x")]] (Sample.typed "LINE")
             [Sample.typed "pie"] "LINE");
      [reflexivity | repeat constructor | reflexivity].
  - apply (proj2 (proj2 (normalizeType_resolves_kind Js.toLowerCase
                    (Sample.chart "c" None
                       (Sample.series [Js.JObj [("type", Js.JNum 3)];
                                       Js.JNull])))
                    (or_introl eq_refl))).
    repeat constructor.
Defined.

(** C2, counterexample.  The chart [Sample.blank_kind_bar] has a
    [chart_type] field, the empty string, and a first series of type
    bar.  Its resolved kind is "bar", not the lower-cased [chart_type]. *)
Lemma normalizeType_blank_chart_type_counterexample :
  chart_type Sample.blank_kind_bar = Some "" ∧
  ChartGrid.normalizeType (Some Sample.blank_kind_bar) = "bar" ∧
  ChartGrid.normalizeType (Some Sample.blank_kind_bar) ≠ Js.toLowerCase "".
Proof. split; [reflexivity|]. split; [reflexivity | discriminate]. Qed.

(** ** The handlers of the application shell *)

(** Runs a handler symbolically up to the next call of a collaborator
    or the next test of the session identifier. *)
Ltac run_handler :=
  unfold App.exec, App.handleUpload, App.handleSendMessage,
    App.handleBuildManualChart, App.clickBuildChart, App.await,
    App.console_error, App.setSessionId, App.setColumns, App.setPreview,
    App.setCharts, App.setHistory, App.setUploading, App.setChatLoading,
    App.setManualLoading, App.setStatus, App.setError, App.on_app,
    mbind, state_bind, mret, state_ret, read, modify;
  cbn.

#[local] Arguments Js.slice0 : simpl never.

Section Orchestrator.

Import App.

Variable uploadDataset : File → Js.Outcome UploadResponse.
Variable sendChat : string → string → Js.Outcome ChatResponse.
Variable buildManualChart :
  string → ManualChartRequest → Js.Outcome ManualChartResponse.

(** A session is live when the session identifier is a non-empty
    string. *)
Lemma live_session (s : AppState) (sid : string) :
  sessionId s = Some sid → sid ≠ "" → Js.as_truthy (sessionId s) = Some sid.
Proof. intros Hs Hne. by apply as_truthy_Some. Qed.

(** C5.  After an upload that succeeds, the session identifier, the
    column summaries and the preview are those of the response, and the
    chart collection and the transcript are empty, whatever they were
    before. *)
Theorem upload_success_installs_and_clears
  (file : File) (w : World) (result : UploadResponse) :
  uploadDataset file = Js.Resolved result →
  let w' := exec (handleUpload uploadDataset file) w in
  sessionId (app w') = Some (up_sessionId result) ∧
  columns (app w') = up_columns result ∧
  preview (app w') = up_preview result ∧
  charts (app w') = [] ∧
  history (app w') = [].
Proof.
  intros Hcall. unfold exec, handleUpload. rewrite Hcall. vm_compute. auto.
Qed.

(** C6.  After an upload that fails, the session identifier, the column
    summaries, the preview, the chart collection and the transcript are
    what they were; the error and status messages are set, and nothing
    was retried. *)
Theorem upload_failure_keeps_session
  (file : File) (w : World) (err : Js.Thrown) :
  uploadDataset file = Js.Rejected err →
  let w' := exec (handleUpload uploadDataset file) w in
  sessionId (app w') = sessionId (app w) ∧
  columns (app w') = columns (app w) ∧
  preview (app w') = preview (app w) ∧
  charts (app w') = charts (app w) ∧
  history (app w') = history (app w) ∧
  error (app w') = Some (Js.message_or err "Failed to upload dataset.") ∧
  status (app w') = "Upload failed. Please try another file." ∧
  requests w' = requests w ++ [UploadRequest file].
Proof.
  intros Hcall. unfold exec, handleUpload. rewrite Hcall. vm_compute.
  repeat split.
Qed.

(** C3.  When a message is sent in a live session and the chat call
    fails, the transcript is again what it was before the message was
    sent: the handler drops the last element of the transcript to which
    it had appended the user entry, and that is all it drops.  The chart
    collection and the session are untouched, and the error message is
    set. *)
Theorem sendMessage_failure_restores_transcript
  (message : string) (w : World) (sid : string) (err : Js.Thrown) :
  sessionId (app w) = Some sid → sid ≠ "" →
  sendChat sid message = Js.Rejected err →
  let w' := exec (handleSendMessage sendChat message) w in
  history (app w') = history (app w) ∧
  history (app w') =
    Js.slice0 (-1)
      (history (app w) ++ [{| role := user; content := message |}]) ∧
  charts (app w') = charts (app w) ∧
  sessionId (app w') = sessionId (app w) ∧
  columns (app w') = columns (app w) ∧
  preview (app w') = preview (app w) ∧
  error (app w') = Some (Js.message_or err "Chat request failed.") ∧
  requests w' = requests w ++ [ChatRequest sid message].
Proof.
  intros Hs Hne Hcall. run_handler. rewrite (live_session _ _ Hs Hne).
  cbn. rewrite Hcall. cbn. rewrite slice0_pop_push. repeat split.
Qed.

(** C4.  When a message is sent in a live session and the chat call
    succeeds, the chart collection and the transcript are exactly the
    ones of the response: nothing of the previous local values, nor the
    user entry appended before the call, is kept. *)
Theorem sendMessage_success_replaces_state
  (message : string) (w : World) (sid text : string)
  (cs : list ChartIdea) (hs : list Message) :
  sessionId (app w) = Some sid → sid ≠ "" →
  sendChat sid message =
    Js.Resolved {| reply := text; chat_charts := Some cs;
                   chat_history := Some hs |} →
  let w' := exec (handleSendMessage sendChat message) w in
  charts (app w') = cs ∧ history (app w') = hs.
Proof.
  intros Hs Hne Hcall. run_handler. rewrite (live_session _ _ Hs Hne).
  cbn. rewrite Hcall. cbn. auto.
Qed.

(** C8.  In a live session, a manual build that succeeds replaces the
    chart collection with the collection of the response and leaves the
    transcript and the session as they were; a manual build that fails
    leaves the chart collection, the transcript and the session as they
    were and sets the error message. *)
Theorem manual_build_touches_charts_only
  (payload : ManualChartRequest) (w : World) (sid : string) :
  sessionId (app w) = Some sid → sid ≠ "" →
  let w' := exec (handleBuildManualChart buildManualChart payload) w in
  (∀ response cs,
     buildManualChart sid payload = Js.Resolved response →
     manual_charts response = Some cs →
     charts (app w') = cs ∧
     history (app w') = history (app w) ∧
     sessionId (app w') = sessionId (app w) ∧
     error (app w') = None) ∧
  (∀ err,
     buildManualChart sid payload = Js.Rejected err →
     charts (app w') = charts (app w) ∧
     history (app w') = history (app w) ∧
     sessionId (app w') = sessionId (app w) ∧
     columns (app w') = columns (app w) ∧
     preview (app w') = preview (app w) ∧
     error (app w') =
       Some (Js.message_or err "Failed to build manual chart.")).
Proof.
  intros Hs Hne. run_handler. rewrite (live_session _ _ Hs Hne). cbn.
  split.
  - intros response cs Hcall Hcs. rewrite Hcall. cbn. rewrite Hcs. auto.
  - intros err Hcall. rewrite Hcall. cbn. repeat split.
Qed.

(** C10.  In a live session, a chat response that succeeds without a
    chart collection leaves the chart collection empty, and one without
    a transcript leaves the transcript empty; a manual build response
    that succeeds without a chart collection leaves the chart collection
    empty.  The previous local value is not kept in any of these
    cases. *)
Theorem missing_collections_become_empty
  (message : string) (payload : ManualChartRequest) (w : World)
  (sid : string) :
  sessionId (app w) = Some sid → sid ≠ "" →
  (∀ response,
     sendChat sid message = Js.Resolved response →
     (chat_charts response = None →
      charts (app (exec (handleSendMessage sendChat message) w)) = []) ∧
     (chat_history response = None →
      history (app (exec (handleSendMessage sendChat message) w)) = [])) ∧
  (∀ response,
     buildManualChart sid payload = Js.Resolved response →
     manual_charts response = None →
     charts (app (exec (handleBuildManualChart buildManualChart payload) w))
       = []).
Proof.
  intros Hs Hne. split.
  - intros response Hcall. run_handler. rewrite (live_session _ _ Hs Hne).
    cbn. rewrite Hcall. cbn. split; intros ->; reflexivity.
  - intros response Hcall Hnone. run_handler.
    rewrite (live_session _ _ Hs Hne). cbn. rewrite Hcall. cbn.
    rewrite Hnone. reflexivity.
Qed.

(** The operation behind the manual build sends the request it is
    given as soon as the session is live. *)
Lemma manual_build_sends_request
  (payload : ManualChartRequest) (w : World) (sid : string) :
  sessionId (app w) = Some sid → sid ≠ "" →
  requests (exec (handleBuildManualChart buildManualChart payload) w) =
    requests w ++ [ManualRequest sid payload].
Proof.
  intros Hs Hne. run_handler. rewrite (live_session _ _ Hs Hne). cbn.
  destruct (buildManualChart sid payload); reflexivity.
Qed.

(** C7, as amended.  The check that an aggregation other than count
    comes with a value column is made by the form, not by the operation
    behind it.  When the aggregation of the form is not count and its
    value column is empty, the form is not ready, its build button is
    disabled, and a click sends no request, surfaces no error and
    changes no state.  When the aggregation is count, a grouping column
    is chosen, the session is live and no build is running, the form is
    ready without a value column and a click sends the request, with no
    value column in it.  The operation [handleBuildManualChart] checks
    the session only: in a live session it sends every request it is
    given. *)
Theorem manual_value_check_is_made_by_the_form
  (f : ChartControls.Form) (w : World) :
  (ChartControls.f_agg f ≠ count → ChartControls.f_value f = "" →
   ChartControls.ready (controlsProps (app w)) f = false ∧
   clickBuildChart buildManualChart f w = (tt, w)) ∧
  (ChartControls.f_agg f = count → ChartControls.f_groupBy f ≠ "" →
   ∀ sid, sessionId (app w) = Some sid → sid ≠ "" →
          manualLoading (app w) = false →
   ChartControls.ready (controlsProps (app w)) f = true ∧
   requests (exec (clickBuildChart buildManualChart f) w) =
     requests w ++
       [ManualRequest sid
          {| chartType := ChartControls.f_chartType f;
             groupBy := Some (ChartControls.f_groupBy f);
             value := None;
             agg := Some count |}]) ∧
  (∀ payload sid, sessionId (app w) = Some sid → sid ≠ "" →
     requests (exec (handleBuildManualChart buildManualChart payload) w) =
       requests w ++ [ManualRequest sid payload]).
Proof.
  split; [|split].
  - intros Hagg Hvalue.
    assert (ChartControls.ready (controlsProps (app w)) f = false) as Hready.
    { unfold ChartControls.ready, ChartControls.requiresValue.
      rewrite Hvalue. destruct (ChartControls.f_agg f); [done| |];
        cbn; by rewrite andb_false_r. }
    split; [exact Hready|].
    unfold clickBuildChart, ChartControls.clickBuild,
      ChartControls.buttonDisabled, mbind, state_bind, read.
    rewrite Hready. reflexivity.
  - intros Hagg Hgroup sid Hs Hne Hidle.
    assert (Js.truthy (ChartControls.f_groupBy f) = true) as Hg.
    { destruct (ChartControls.f_groupBy f); [done | reflexivity]. }
    assert (hasDataset (app w) = true) as Hlive.
    { unfold hasDataset. rewrite Hs. destruct sid; [done | reflexivity]. }
    assert (ChartControls.ready (controlsProps (app w)) f = true) as Hready.
    { unfold ChartControls.ready, ChartControls.requiresValue, controlsProps.
      cbn. rewrite Hagg, Hg, Hlive. reflexivity. }
    split; [exact Hready|].
    unfold exec, clickBuildChart, ChartControls.clickBuild,
      ChartControls.buttonDisabled, ChartControls.handleSubmit,
      ChartControls.requiresValue.
    unfold mbind at 1. unfold state_bind at 1. unfold read at 1.
    rewrite Hready, Hg, Hagg.
    cbn [controlsProps ChartControls.loading negb orb].
    rewrite Hidle. cbn [negb orb].
    by apply manual_build_sends_request.
  - intros payload sid. apply manual_build_sends_request.
Qed.

(** After an upload that succeeds with at least one column, the
    dataset panel shows the first eight rows of the preview of the
    response. *)
Lemma upload_then_preview
  (file : File) (w : World) (result : UploadResponse)
  (col : ColumnSummary) (cols : list ColumnSummary) :
  uploadDataset file = Js.Resolved result →
  up_columns result = col :: cols →
  renderDataPreview (app (exec (handleUpload uploadDataset file) w)) =
    DataPreview.ProfilePanel (col :: cols) (take 8 (up_preview result)).
Proof.
  intros Hcall Hcols.
  assert (columns (app (exec (handleUpload uploadDataset file) w))
            = up_columns result ∧
          preview (app (exec (handleUpload uploadDataset file) w))
            = up_preview result) as [Hc Hp].
  { unfold exec, handleUpload. rewrite Hcall. vm_compute. auto. }
  unfold renderDataPreview, DataPreview.DataPreview,
    DataPreview.visiblePreview.
  rewrite Hc, Hp, Hcols, slice0_8. reflexivity.
Qed.

End Orchestrator.

(** ** The dataset preview *)

(** C9, as amended.  When there is at least one column summary, the
    rows that the dataset panel displays are the first eight rows of
    the preview it is given, all of it when it has eight rows or fewer:
    the visible rows are that prefix, there are at most eight of them,
    and the table of the panel is built from them.  When there is no
    column summary, the panel is the hint panel and displays no preview
    row, whatever the preview holds. *)
Theorem preview_shows_first_8_rows
  (columns : list ColumnSummary) (preview : list PreviewRow) :
  DataPreview.visiblePreview preview = take 8 preview ∧
  length (DataPreview.visiblePreview preview) = 8 `min` length preview ∧
  DataPreview.DataPreview columns preview
    = match columns with
      | [] => DataPreview.HintPanel
      | _ :: _ => DataPreview.ProfilePanel columns (take 8 preview)
      end ∧
  DataPreview.displayed_rows (DataPreview.DataPreview columns preview)
    = match columns with
      | [] => []
      | _ :: _ => take 8 preview
      end.
Proof.
  unfold DataPreview.DataPreview, DataPreview.visiblePreview.
  rewrite slice0_8. split; [reflexivity|]. split; [apply length_take|].
  destruct columns; split; reflexivity.
Qed.

(** C9, counterexample.  Two preview rows and no column summary: the
    first eight rows of the preview are these two rows, but the panel
    displays none of them. *)
Lemma preview_without_columns_counterexample :
  take 8 [Sample.row 1; Sample.row 2] = [Sample.row 1; Sample.row 2] ∧
  DataPreview.DataPreview [] [Sample.row 1; Sample.row 2]
    = DataPreview.HintPanel ∧
  DataPreview.displayed_rows
    (DataPreview.DataPreview [] [Sample.row 1; Sample.row 2])
    ≠ take 8 [Sample.row 1; Sample.row 2].
Proof. split; [reflexivity|]. split; [reflexivity | discriminate]. Qed.

(** ** The statements on sample sessions *)

Lemma s1_not_blank : "s1" ≠ "".
Proof. discriminate. Qed.

(** A second upload in the live sample session: the new session is
    installed and the old chart and transcript entry are gone. *)
Lemma upload_success_installs_and_clears_witness :
  App.sessionId
    (App.app (App.exec (App.handleUpload Sample.upload_ok Sample.csv)
                       Sample.live)) = Some "s2" ∧
  App.charts
    (App.app (App.exec (App.handleUpload Sample.upload_ok Sample.csv)
                       Sample.live)) = [] ∧
  App.history
    (App.app (App.exec (App.handleUpload Sample.upload_ok Sample.csv)
                       Sample.live)) = [].
Proof.
  pose proof (upload_success_installs_and_clears Sample.upload_ok
                Sample.csv Sample.live Sample.uploaded eq_refl) as H.
  cbv zeta in H. destruct H as (Hs & _ & _ & Hc & Hh).
  split; [exact Hs|]. split; [exact Hc | exact Hh].
Defined.

(** An upload that fails in the live sample session. *)
Lemma upload_failure_keeps_session_witness :
  App.sessionId
    (App.app (App.exec (App.handleUpload Sample.upload_down Sample.csv)
                       Sample.live)) = Some "s1" ∧
  App.history
    (App.app (App.exec (App.handleUpload Sample.upload_down Sample.csv)
                       Sample.live)) = [Sample.hello] ∧
  App.error
    (App.app (App.exec (App.handleUpload Sample.upload_down Sample.csv)
                       Sample.live)) = Some "Network Error".
Proof.
  pose proof (upload_failure_keeps_session Sample.upload_down Sample.csv
                Sample.live Sample.offline eq_refl) as H.
  cbv zeta in H. destruct H as (Hs & _ & _ & _ & Hh & He & _).
  split; [exact Hs|]. split; [exact Hh | exact He].
Defined.

(** A message sent in the live sample session while the chat service is
    down. *)
Lemma sendMessage_failure_restores_transcript_witness :
  App.history
    (App.app (App.exec (App.handleSendMessage Sample.chat_down "more")
                       Sample.live)) = [Sample.hello] ∧
  App.charts
    (App.app (App.exec (App.handleSendMessage Sample.chat_down "more")
                       Sample.live)) = App.charts (App.app Sample.live).
Proof.
  pose proof (sendMessage_failure_restores_transcript Sample.chat_down
                "more" Sample.live "s1" Sample.offline eq_refl
                s1_not_blank eq_refl) as H.
  cbv zeta in H. destruct H as (Hh & _ & Hc & _).
  split; [exact Hh | exact Hc].
Defined.

(** A message answered in the live sample session. *)
Lemma sendMessage_success_replaces_state_witness :
  App.charts
    (App.app (App.exec (App.handleSendMessage Sample.chat_ok "more")
                       Sample.live))
    = [Sample.chart "Trend" (Some "line") None] ∧
  App.history
    (App.app (App.exec (App.handleSendMessage Sample.chat_ok "more")
                       Sample.live)) = [Sample.hello; Sample.answer].
Proof.
  exact (sendMessage_success_replaces_state Sample.chat_ok "more"
           Sample.live "s1" "Here is a line chart."
           [Sample.chart "Trend" (Some "line") None]
           [Sample.hello; Sample.answer] eq_refl s1_not_blank eq_refl).
Defined.

(** A manual build in the live sample session, once served and once
    with the service down. *)
Lemma manual_build_touches_charts_only_witness :
  App.charts
    (App.app (App.exec (App.handleBuildManualChart Sample.build_ok
                          Sample.sum_without_value) Sample.live))
    = [Sample.chart "Sum by region" (Some "bar") None] ∧
  App.history
    (App.app (App.exec (App.handleBuildManualChart Sample.build_ok
                          Sample.sum_without_value) Sample.live))
    = [Sample.hello] ∧
  App.charts
    (App.app (App.exec (App.handleBuildManualChart Sample.build_down
                          Sample.sum_without_value) Sample.live))
    = App.charts (App.app Sample.live).
Proof.
  pose proof (manual_build_touches_charts_only Sample.build_ok
                Sample.sum_without_value Sample.live "s1" eq_refl
                s1_not_blank) as Hok.
  pose proof (manual_build_touches_charts_only Sample.build_down
                Sample.sum_without_value Sample.live "s1" eq_refl
                s1_not_blank) as Hdown.
  cbv zeta in Hok, Hdown.
  destruct (proj1 Hok Sample.built _ eq_refl eq_refl) as (Hc & Hh & _).
  destruct (proj2 Hdown Sample.offline eq_refl) as (Hc' & _).
  split; [exact Hc|]. split; [exact Hh | exact Hc'].
Defined.

(** Responses that carry no collection, in the live sample session
    (which has one chart and one transcript entry). *)
Lemma missing_collections_become_empty_witness :
  App.charts
    (App.app (App.exec (App.handleSendMessage Sample.chat_bare "more")
                       Sample.live)) = [] ∧
  App.history
    (App.app (App.exec (App.handleSendMessage Sample.chat_bare "more")
                       Sample.live)) = [] ∧
  App.charts
    (App.app (App.exec (App.handleBuildManualChart Sample.build_bare
                          Sample.sum_without_value) Sample.live)) = [].
Proof.
  destruct (missing_collections_become_empty Sample.chat_bare
              Sample.build_bare "more" Sample.sum_without_value
              Sample.live "s1" eq_refl s1_not_blank) as (Hchat & Hbuild).
  destruct (Hchat _ eq_refl) as (Hc & Hh).
  split; [exact (Hc eq_refl)|].
  split; [exact (Hh eq_refl) | exact (Hbuild _ eq_refl eq_refl)].
Defined.

(** The form with sum and no value column, the form with count, and the
    operation called with a request that names no value column. *)
Lemma manual_value_check_is_made_by_the_form_witness :
  App.clickBuildChart Sample.build_ok Sample.form_sum_blank Sample.live
    = (tt, Sample.live) ∧
  App.requests
    (App.exec (App.clickBuildChart Sample.build_ok Sample.form_count)
              Sample.live)
    = [App.ManualRequest "s1"
         {| chartType := pie; groupBy := Some "region"; value := None;
            agg := Some count |}] ∧
  App.requests
    (App.exec (App.handleBuildManualChart Sample.build_ok
                 Sample.sum_without_value) Sample.live)
    = [App.ManualRequest "s1" Sample.sum_without_value].
Proof.
  destruct (manual_value_check_is_made_by_the_form Sample.build_ok
              Sample.form_sum_blank Sample.live) as (Hsum & _ & Hany).
  destruct (manual_value_check_is_made_by_the_form Sample.build_ok
              Sample.form_count Sample.live) as (_ & Hcount & _).
  split; [|split].
  - apply Hsum; [discriminate | reflexivity].
  - refine (proj2 (Hcount eq_refl _ "s1" eq_refl s1_not_blank eq_refl)).
    discriminate.
  - exact (Hany Sample.sum_without_value "s1" eq_refl s1_not_blank).
Defined.

(** C7, counterexample.  In the live sample session, the operation
    behind the manual build is given a request with aggregation sum and
    no value column.  It sends the request, sets no error, and the chart
    collection changes to the one of the response. *)
Lemma manual_sum_without_value_counterexample :
  agg Sample.sum_without_value = Some sum ∧
  value Sample.sum_without_value = None ∧
  App.requests
    (App.exec (App.handleBuildManualChart Sample.build_ok
                 Sample.sum_without_value) Sample.live)
    = [App.ManualRequest "s1" Sample.sum_without_value] ∧
  App.error
    (App.app (App.exec (App.handleBuildManualChart Sample.build_ok
                          Sample.sum_without_value) Sample.live)) = None ∧
  App.charts
    (App.app (App.exec (App.handleBuildManualChart Sample.build_ok
                          Sample.sum_without_value) Sample.live))
    ≠ App.charts (App.app Sample.live).
Proof. repeat (split; [reflexivity|]). discriminate. Qed.

(** * Further properties *)

(** ** The working list of the chart grid *)

Lemma truthy_of_as_truthy (o : option string) (t : string) :
  Js.as_truthy o = Some t → o = Some t ∧ Js.truthy t = true.
Proof.
  intros H. apply as_truthy_Some in H as [-> Hne].
  split; [reflexivity|]. by destruct t.
Qed.

(** What [ClaimsLast] says about the elements: the claimed entry and
    the rest make up the list, and the rest keeps the order. *)
Lemma ClaimsLast_conserves (expected : string) (l : list ChartIdea)
  (claimed : option ChartIdea) (rest : list ChartIdea) :
  Kind.ClaimsLast expected l claimed rest →
  option_list claimed ++ rest ≡ₚ l ∧ rest `sublist_of` l.
Proof.
  destruct claimed as [c|]; simpl.
  - intros (before & after & -> & -> & _). split.
    + apply Permutation_middle.
    + apply sublist_app; [reflexivity|]. by apply sublist_cons.
  - intros [-> _]. split; reflexivity.
Qed.

Lemma claimChart_conserves_aux
  (expectedType : option string) (l : list ChartIdea) :
  option_list (ChartGrid.claimChart expectedType l).1
    ++ (ChartGrid.claimChart expectedType l).2 ≡ₚ l ∧
  (ChartGrid.claimChart expectedType l).2 `sublist_of` l.
Proof.
  destruct (Js.as_truthy expectedType) as [e|] eqn:He.
  - apply truthy_of_as_truthy in He as [-> He].
    apply (ClaimsLast_conserves e). by apply claimChart_claims_last.
  - unfold ChartGrid.claimChart. rewrite He.
    destruct l as [|c l]; simpl; split; try reflexivity.
    by apply sublist_cons.
Qed.

(** X1.  Whatever the expected kind, also when it is null or empty and
    the first entry is taken, one call of [claimChart] keeps every
    chart: the claimed entry, if any, and the rest of the working list
    are a rearrangement of the list before the call, the rest has its
    entries in their former order, and the list is shorter by one
    exactly when an entry was claimed. *)
Theorem claimChart_keeps_every_chart
  (expectedType : option string) (l : list ChartIdea) :
  option_list (ChartGrid.claimChart expectedType l).1
    ++ (ChartGrid.claimChart expectedType l).2 ≡ₚ l ∧
  (ChartGrid.claimChart expectedType l).2 `sublist_of` l ∧
  length l =
    length (option_list (ChartGrid.claimChart expectedType l).1)
    + length (ChartGrid.claimChart expectedType l).2.
Proof.
  destruct (claimChart_conserves_aux expectedType l) as [Hperm Hsub].
  split; [exact Hperm|]. split; [exact Hsub|].
  rewrite <- length_app. symmetry. by apply Permutation_length.
Qed.

(** The three calls that fill the slots, one after the other. *)
Lemma slots_from_steps (charts : list ChartIdea) :
  ChartGrid.slots_from charts =
    let s1 := ChartGrid.claimChart (Some "bar") charts in
    let s2 := ChartGrid.claimChart (Some "line") s1.2 in
    let s3 := ChartGrid.claimChart (Some "pie") s2.2 in
    ([ {| ChartGrid.chart := s1.1;
          ChartGrid.slot_expectedType := Some "bar" |};
       {| ChartGrid.chart := s2.1;
          ChartGrid.slot_expectedType := Some "line" |};
       {| ChartGrid.chart := s3.1;
          ChartGrid.slot_expectedType := Some "pie" |} ], s3.2).
Proof.
  unfold ChartGrid.slots_from, ChartGrid.preferredSlots, mapM.
  unfold mbind, state_bind, mret, state_ret. cbn [ChartGrid.expectedType].
  destruct (ChartGrid.claimChart (Some "bar") charts) as [c1 r1].
  cbn [fst snd].
  destruct (ChartGrid.claimChart (Some "line") r1) as [c2 r2].
  cbn [fst snd].
  destruct (ChartGrid.claimChart (Some "pie") r2) as [c3 r3].
  reflexivity.
Qed.

(** The charts in the slots and the charts left over, together. *)
Lemma grid_keeps_every_chart_aux (charts : list ChartIdea) :
  Layout.shown (ChartGrid.slots_from charts).1
    ++ (ChartGrid.slots_from charts).2 ≡ₚ charts ∧
  (ChartGrid.slots_from charts).2 `sublist_of` charts.
Proof.
  rewrite slots_from_steps. cbv zeta.
  destruct (claimChart_conserves_aux (Some "bar") charts) as (P1 & S1).
  destruct (ChartGrid.claimChart (Some "bar") charts) as [c1 r1].
  cbn [fst snd] in *.
  destruct (claimChart_conserves_aux (Some "line") r1) as (P2 & S2).
  destruct (ChartGrid.claimChart (Some "line") r1) as [c2 r2].
  cbn [fst snd] in *.
  destruct (claimChart_conserves_aux (Some "pie") r2) as (P3 & S3).
  destruct (ChartGrid.claimChart (Some "pie") r2) as [c3 r3].
  cbn [fst snd] in *.
  split.
  - rewrite <- P1, <- P2, <- P3. unfold Layout.shown.
    destruct c1, c2, c3; simpl; try reflexivity;
      repeat (apply Permutation_skip || apply Permutation_refl
              || (etrans; [|apply Permutation_middle])).
  - by rewrite S3, S2.
Qed.

(** X2.  The grid neither loses nor repeats a chart: the charts in the
    slots together with the charts left over are a rearrangement of the
    chart collection, so a chart that occurs once in the collection is
    in at most one slot.  The charts left over are in their former
    order, and there are always three slots, so at most three charts
    are shown. *)
Theorem grid_keeps_every_chart (charts : list ChartIdea) :
  Layout.shown (ChartGrid.slots_from charts).1
    ++ (ChartGrid.slots_from charts).2 ≡ₚ charts ∧
  (ChartGrid.slots_from charts).2 `sublist_of` charts ∧
  (length (Layout.shown (ChartGrid.ChartGrid charts)) ≤ 3)%nat ∧
  length (ChartGrid.ChartGrid charts) = 3.
Proof.
  destruct (grid_keeps_every_chart_aux charts) as [Hperm Hsub].
  split; [exact Hperm|]. split; [exact Hsub|].
  unfold ChartGrid.ChartGrid. rewrite slots_from_steps. cbv zeta.
  cbn [fst]. split; [|reflexivity]. unfold Layout.shown.
  destruct (ChartGrid.claimChart (Some "bar") charts) as [[?|] r1];
    cbn [fst snd];
    destruct (ChartGrid.claimChart (Some "line") r1) as [[?|] r2];
    cbn [fst snd];
    destruct (ChartGrid.claimChart (Some "pie") r2) as [[?|] r3];
    simpl; lia.
Qed.

Section ClaimingMore.

Import ChartGrid Kind.

Variable expected : string.
Hypothesis expected_truthy : Js.truthy expected = true.

(** Nothing is claimed exactly when no entry matches. *)
Lemma claimChart_None_iff (l : list ChartIdea) :
  (claimChart (Some expected) l).1 = None ↔
  Forall (fun c => matches expected c = false) l.
Proof.
  pose proof (claimChart_claims_last expected l expected_truthy) as H.
  destruct (claimChart (Some expected) l) as [[c|] rest]; simpl in *.
  - destruct H as (before & after & -> & _ & Hc & _). split; [done|].
    intros Hall. apply Forall_app in Hall as [_ Hall].
    apply Forall_cons in Hall as [Hno _]. congruence.
  - destruct H as [_ Hall]. split; auto.
Qed.

(** The claimed entry matches. *)
Lemma claimChart_Some_matches (l : list ChartIdea) (c : ChartIdea) :
  (claimChart (Some expected) l).1 = Some c → matches expected c = true.
Proof.
  pose proof (claimChart_claims_last expected l expected_truthy) as H.
  destruct (claimChart (Some expected) l) as [claimed rest]; simpl in *.
  intros ->. by destruct H as (before & after & _ & _ & Hc & _).
Qed.

(** An entry that does not match stays in the working list. *)
Lemma claimChart_leaves_others (l : list ChartIdea) (c : ChartIdea) :
  c ∈ l → matches expected c = false → c ∈ (claimChart (Some expected) l).2.
Proof.
  pose proof (claimChart_claims_last expected l expected_truthy) as H.
  destruct (claimChart (Some expected) l) as [[x|] rest]; simpl in *.
  - destruct H as (before & after & -> & -> & Hx & _).
    rewrite !elem_of_app, elem_of_cons. intros [?|[->|?]] Hc; auto.
    congruence.
  - by destruct H as [-> _].
Qed.

(** A matching chart at the end of the working list is the one that is
    claimed. *)
Lemma claimChart_last_entry (l : list ChartIdea) (c : ChartIdea) :
  matches expected c = true →
  claimChart (Some expected) (l ++ [c]) = (Some c, l).
Proof.
  intros Hc. unfold claimChart. simpl. rewrite expected_truthy.
  unfold mbind, state_bind, read, modify, mret, state_ret.
  rewrite length_app, Nat.add_1_r. cbn [scan].
  rewrite lookup_app_r, Nat.sub_diag by lia. cbn [lookup list_lookup].
  unfold matches in Hc. rewrite Hc.
  rewrite lookup_app_r, Nat.sub_diag by lia. cbn [lookup list_lookup].
  f_equal. rewrite delete_take_drop, take_app_length.
  rewrite drop_ge by (rewrite length_app; simpl; lia).
  apply app_nil_r.
Qed.

Lemma scan_app (l k : list ChartIdea) (n : nat) :
  (n ≤ length l)%nat → scan expected (l ++ k) n = scan expected l n.
Proof.
  induction n as [|n IH]; [reflexivity|]. intros Hn. cbn [scan].
  rewrite lookup_app_l by lia. rewrite IH by lia. reflexivity.
Qed.

(** A chart at the end of the working list that does not match is
    passed over: the call claims what it claims without that chart. *)
Lemma claimChart_skips_last_entry (l : list ChartIdea) (c : ChartIdea) :
  matches expected c = false →
  claimChart (Some expected) (l ++ [c]) =
    ((claimChart (Some expected) l).1,
     (claimChart (Some expected) l).2 ++ [c]).
Proof.
  intros Hc. unfold claimChart. simpl. rewrite expected_truthy.
  unfold mbind, state_bind, read, modify, mret, state_ret.
  rewrite length_app, Nat.add_1_r. cbn [scan].
  rewrite lookup_app_r, Nat.sub_diag by lia. cbn [lookup list_lookup].
  unfold matches in Hc. rewrite Hc, scan_app by lia.
  destruct (scan expected l (length l)) as [i|] eqn:Hscan; [|reflexivity].
  destruct (scan_Some _ _ _ _ Hscan) as (Hlt & _).
  rewrite lookup_app_l by lia. f_equal.
  rewrite !delete_take_drop, take_app_le, drop_app_le by lia.
  by rewrite app_assoc.
Qed.

End ClaimingMore.

(** ** The slots of the chart grid *)

(** X3.  A slot of the grid that holds a chart holds one whose
    resolved kind contains the kind of the slot, and every chart that
    the grid shows comes from the chart collection. *)
Theorem grid_slots_hold_matching_charts (charts : list ChartIdea) :
  Forall Layout.well_placed (ChartGrid.ChartGrid charts) ∧
  Layout.shown (ChartGrid.ChartGrid charts) ⊆ charts.
Proof.
  split.
  - unfold ChartGrid.ChartGrid. rewrite slots_from_steps. cbv zeta.
    cbn [fst]. repeat apply Forall_cons_2; [| | |apply Forall_nil_2];
      unfold Layout.well_placed; cbn [ChartGrid.chart
        ChartGrid.slot_expectedType].
    + destruct (ChartGrid.claimChart (Some "bar") charts).1 eqn:E; [|done].
      by eapply (claimChart_Some_matches "bar").
    + destruct (ChartGrid.claimChart (Some "line") _).1 eqn:E; [|done].
      by eapply (claimChart_Some_matches "line").
    + destruct (ChartGrid.claimChart (Some "pie") _).1 eqn:E; [|done].
      by eapply (claimChart_Some_matches "pie").
  - destruct (grid_keeps_every_chart_aux charts) as [Hperm _].
    intros c Hc. rewrite <- Hperm. apply elem_of_app. by left.
Qed.

Lemma slot_chart_grid (charts : list ChartIdea) :
  let s1 := ChartGrid.claimChart (Some "bar") charts in
  let s2 := ChartGrid.claimChart (Some "line") s1.2 in
  let s3 := ChartGrid.claimChart (Some "pie") s2.2 in
  Layout.slot_chart 0 (ChartGrid.ChartGrid charts) = s1.1 ∧
  Layout.slot_chart 1 (ChartGrid.ChartGrid charts) = s2.1 ∧
  Layout.slot_chart 2 (ChartGrid.ChartGrid charts) = s3.1.
Proof.
  unfold ChartGrid.ChartGrid. rewrite slots_from_steps. cbv zeta.
  repeat split.
Qed.

(** X4.  The bar slot is empty exactly when no chart of the collection
    matches bar.  A chart that matches line and not bar is enough for
    the line slot to be filled, and a chart that matches pie and
    neither bar nor line is enough for the pie slot to be filled: an
    earlier slot cannot take the only candidate of a later one unless
    that chart matches the earlier kind too. *)
Theorem slot_is_filled_when_a_chart_matches (charts : list ChartIdea) :
  (Layout.slot_chart 0 (ChartGrid.ChartGrid charts) = None ↔
   Forall (fun c => Kind.matches "bar" c = false) charts) ∧
  (∀ c, c ∈ charts → Kind.matches "line" c = true →
        Kind.matches "bar" c = false →
        is_Some (Layout.slot_chart 1 (ChartGrid.ChartGrid charts))) ∧
  (∀ c, c ∈ charts → Kind.matches "pie" c = true →
        Kind.matches "bar" c = false → Kind.matches "line" c = false →
        is_Some (Layout.slot_chart 2 (ChartGrid.ChartGrid charts))).
Proof.
  destruct (slot_chart_grid charts) as (-> & -> & ->).
  split; [|split].
  - by apply claimChart_None_iff.
  - intros c Hin Hline Hbar.
    apply (claimChart_leaves_others "bar" eq_refl) in Hin; [|done].
    apply not_eq_None_Some. intros Hnone.
    apply (claimChart_None_iff "line" eq_refl) in Hnone.
    rewrite Forall_forall in Hnone. specialize (Hnone c Hin). congruence.
  - intros c Hin Hpie Hbar Hline.
    apply (claimChart_leaves_others "bar" eq_refl) in Hin; [|done].
    apply (claimChart_leaves_others "line" eq_refl) in Hin; [|done].
    apply not_eq_None_Some. intros Hnone.
    apply (claimChart_None_iff "pie" eq_refl) in Hnone.
    rewrite Forall_forall in Hnone. specialize (Hnone c Hin). congruence.
Qed.

(** X5.  The chart produced last wins its slot.  When a chart is added
    at the end of the collection: if it matches bar, the bar slot shows
    it; if it matches line and not bar, the line slot shows it and the
    bar slot shows what it showed; if it matches pie and neither bar
    nor line, the pie slot shows it and the other two slots show what
    they showed. *)
Theorem appended_chart_takes_its_slot
  (charts : list ChartIdea) (c : ChartIdea) :
  (Kind.matches "bar" c = true →
   Layout.slot_chart 0 (ChartGrid.ChartGrid (charts ++ [c])) = Some c) ∧
  (Kind.matches "bar" c = false → Kind.matches "line" c = true →
   Layout.slot_chart 1 (ChartGrid.ChartGrid (charts ++ [c])) = Some c ∧
   Layout.slot_chart 0 (ChartGrid.ChartGrid (charts ++ [c])) =
     Layout.slot_chart 0 (ChartGrid.ChartGrid charts)) ∧
  (Kind.matches "bar" c = false → Kind.matches "line" c = false →
   Kind.matches "pie" c = true →
   Layout.slot_chart 2 (ChartGrid.ChartGrid (charts ++ [c])) = Some c ∧
   Layout.slot_chart 0 (ChartGrid.ChartGrid (charts ++ [c])) =
     Layout.slot_chart 0 (ChartGrid.ChartGrid charts) ∧
   Layout.slot_chart 1 (ChartGrid.ChartGrid (charts ++ [c])) =
     Layout.slot_chart 1 (ChartGrid.ChartGrid charts)).
Proof.
  destruct (slot_chart_grid charts) as (-> & -> & _).
  destruct (slot_chart_grid (charts ++ [c])) as (-> & -> & ->).
  split; [|split].
  - intros Hbar. by rewrite (claimChart_last_entry "bar" eq_refl).
  - intros Hbar Hline.
    rewrite (claimChart_skips_last_entry "bar" eq_refl) by done.
    cbn [fst snd].
    by rewrite (claimChart_last_entry "line" eq_refl).
  - intros Hbar Hline Hpie.
    rewrite (claimChart_skips_last_entry "bar" eq_refl) by done.
    cbn [fst snd].
    rewrite (claimChart_skips_last_entry "line" eq_refl) by done.
    cbn [fst snd].
    by rewrite (claimChart_last_entry "pie" eq_refl).
Qed.

(** ** Lower case *)

Lemma lower_ascii_idemp (c : ascii) :
  Js.lower_ascii (Js.lower_ascii c) = Js.lower_ascii c.
Proof. destruct c as [[] [] [] [] [] [] [] []]; reflexivity. Qed.

Lemma toLowerCase_idemp (s : string) :
  Js.toLowerCase (Js.toLowerCase s) = Js.toLowerCase s.
Proof.
  induction s as [|c s IH]; simpl; [reflexivity|].
  by rewrite lower_ascii_idemp, IH.
Qed.

(** X6.  Lower-casing the resolved kind again changes nothing,
    whichever field the kind was read from and also for a null chart,
    for every lower-casing method that is idempotent and leaves the
    empty string as it is.  So once resolved, a kind can be compared
    without regard to the case in which the back end wrote it. *)
Theorem normalizeType_is_lower_case
  (toLowerCase : string → string) (chart : option ChartIdea) :
  (∀ s, toLowerCase (toLowerCase s) = toLowerCase s) →
  toLowerCase "" = "" →
  toLowerCase (ChartGrid.normalizeTypeWith toLowerCase chart)
    = ChartGrid.normalizeTypeWith toLowerCase chart.
Proof.
  intros Hidem Hempty. unfold ChartGrid.normalizeTypeWith.
  destruct chart as [c|]; [|exact Hempty].
  destruct (Js.as_truthy (chart_type c)); [apply Hidem|].
  destruct (Js.get _ "type") as [[]|]; try exact Hempty.
  apply Hidem.
Qed.

(** ** The chart card *)

(** X7.  The type that a card displays and the kind that the grid
    matches on are read the same way: whatever the lower-casing method
    does, the resolved kind of a chart is that method applied to the
    type that [getDisplayType] finds for the chart itself, and it is
    the empty string when the chart has no type of its own to display.
    The fallback label is displayed only in that last case. *)
Theorem displayed_type_agrees_with_resolved_kind
  (toLowerCase : string → string) (chart : option ChartIdea)
  (fallback : option string) :
  ChartGrid.normalizeTypeWith toLowerCase chart
    = match ChartCard.getDisplayType chart None with
      | Some own => toLowerCase own
      | None => ""
      end ∧
  ChartCard.getDisplayType chart fallback
    = match ChartCard.getDisplayType chart None with
      | Some own => Some own
      | None => fallback
      end.
Proof.
  unfold ChartGrid.normalizeTypeWith, ChartCard.getDisplayType.
  destruct chart as [c|]; simpl.
  - destruct (Js.as_truthy (chart_type c)); [by split|].
    destruct (Js.get _ "type") as [[]|]; by split.
  - by split.
Qed.





(** ** The handlers, whatever the session and the outcome *)

Section OrchestratorMore.

Import App.

Variable uploadDataset : File → Js.Outcome UploadResponse.
Variable sendChat : string → string → Js.Outcome ChatResponse.
Variable buildManualChart :
  string → ManualChartRequest → Js.Outcome ManualChartResponse.

Lemma no_session (s : AppState) :
  hasDataset s = false → Js.as_truthy (sessionId s) = None.
Proof. unfold hasDataset. by destruct (sessionId s) as [[|]|]. Qed.

(** The world after each handler, in closed form. *)
Lemma exec_handleUpload (file : File) (w : World) :
  exec (handleUpload uploadDataset file) w =
    match uploadDataset file with
    | Js.Resolved result =>
        {| app :=
             {| sessionId := Some (up_sessionId result);
                columns := up_columns result;
                preview := up_preview result;
                charts := [];
                history := [];
                uploading := false;
                chatLoading := chatLoading (app w);
                manualLoading := manualLoading (app w);
                status := "Dataset loaded. Ask the agent for insights.";
                error := None |};
           requests := requests w ++ [UploadRequest file];
           console := console w |}
    | Js.Rejected err =>
        {| app :=
             {| sessionId := sessionId (app w);
                columns := columns (app w);
                preview := preview (app w);
                charts := charts (app w);
                history := history (app w);
                uploading := false;
                chatLoading := chatLoading (app w);
                manualLoading := manualLoading (app w);
                status := "Upload failed. Please try another file.";
                error :=
                  Some (Js.message_or err "Failed to upload dataset.") |};
           requests := requests w ++ [UploadRequest file];
           console := console w ++ [err] |}
    end.
Proof.
  unfold exec, handleUpload.
  destruct (uploadDataset file); vm_compute; reflexivity.
Qed.

Lemma exec_handleSendMessage (message : string) (w : World) (sid : string) :
  Js.as_truthy (sessionId (app w)) = Some sid →
  exec (handleSendMessage sendChat message) w =
    match sendChat sid message with
    | Js.Resolved response =>
        {| app :=
             {| sessionId := sessionId (app w);
                columns := columns (app w);
                preview := preview (app w);
                charts := default [] (chat_charts response);
                history := default [] (chat_history response);
                uploading := uploading (app w);
                chatLoading := false;
                manualLoading := manualLoading (app w);
                status := "Charts updated. Ask another question to refine.";
                error := None |};
           requests := requests w ++ [ChatRequest sid message];
           console := console w |}
    | Js.Rejected err =>
        {| app :=
             {| sessionId := sessionId (app w);
                columns := columns (app w);
                preview := preview (app w);
                charts := charts (app w);
                history := history (app w);
                uploading := uploading (app w);
                chatLoading := false;
                manualLoading := manualLoading (app w);
                status := "Agent error. Try sending your message again.";
                error := Some (Js.message_or err "Chat request failed.") |};
           requests := requests w ++ [ChatRequest sid message];
           console := console w ++ [err] |}
    end.
Proof.
  intros Hlive. run_handler. rewrite Hlive. cbn.
  destruct (sendChat sid message); cbn; [reflexivity|].
  by rewrite slice0_pop_push.
Qed.

Lemma exec_handleBuildManualChart
  (payload : ManualChartRequest) (w : World) (sid : string) :
  Js.as_truthy (sessionId (app w)) = Some sid →
  exec (handleBuildManualChart buildManualChart payload) w =
    match buildManualChart sid payload with
    | Js.Resolved response =>
        {| app :=
             {| sessionId := sessionId (app w);
                columns := columns (app w);
                preview := preview (app w);
                charts := default [] (manual_charts response);
                history := history (app w);
                uploading := uploading (app w);
                chatLoading := chatLoading (app w);
                manualLoading := false;
                status := default "Chart updated." (manual_message response);
                error := None |};
           requests := requests w ++ [ManualRequest sid payload];
           console := console w |}
    | Js.Rejected err =>
        {| app :=
             {| sessionId := sessionId (app w);
                columns := columns (app w);
                preview := preview (app w);
                charts := charts (app w);
                history := history (app w);
                uploading := uploading (app w);
                chatLoading := chatLoading (app w);
                manualLoading := false;
                status := "Manual chart failed. Adjust selections and retry.";
                error :=
                  Some (Js.message_or err "Failed to build manual chart.")
             |};
           requests := requests w ++ [ManualRequest sid payload];
           console := console w ++ [err] |}
    end.
Proof.
  intros Hlive. run_handler. rewrite Hlive. cbn.
  destruct (buildManualChart sid payload); reflexivity.
Qed.

Lemma exec_refused_message (message : string) (w : World) :
  Js.as_truthy (sessionId (app w)) = None →
  exec (handleSendMessage sendChat message) w =
    {| app :=
         {| sessionId := sessionId (app w);
            columns := columns (app w);
            preview := preview (app w);
            charts := charts (app w);
            history := history (app w);
            uploading := uploading (app w);
            chatLoading := chatLoading (app w);
            manualLoading := manualLoading (app w);
            status := status (app w);
            error :=
              Some "Upload a dataset before chatting with the agent." |};
       requests := requests w;
       console := console w |}.
Proof. intros Hno. run_handler. by rewrite Hno. Qed.

Lemma exec_refused_build (payload : ManualChartRequest) (w : World) :
  Js.as_truthy (sessionId (app w)) = None →
  exec (handleBuildManualChart buildManualChart payload) w =
    {| app :=
         {| sessionId := sessionId (app w);
            columns := columns (app w);
            preview := preview (app w);
            charts := charts (app w);
            history := history (app w);
            uploading := uploading (app w);
            chatLoading := chatLoading (app w);
            manualLoading := manualLoading (app w);
            status := status (app w);
            error := Some "Upload a dataset before building charts." |};
       requests := requests w;
       console := console w |}.
Proof. intros Hno. run_handler. by rewrite Hno. Qed.

Lemma has_session (s : AppState) :
  hasDataset s = true → ∃ sid, Js.as_truthy (sessionId s) = Some sid.
Proof. unfold hasDataset. destruct (sessionId s) as [[|]|]; by eauto. Qed.

Lemma hasDataset_as_truthy (s : AppState) :
  hasDataset s = bool_decide (is_Some (Js.as_truthy (sessionId s))).
Proof. unfold hasDataset. by destruct (sessionId s) as [[|]|]. Qed.

Lemma helperText_error (s : AppState) (e : string) :
  error s = Some e →
  helperText s = if Js.truthy e then e else status s.
Proof. unfold helperText. intros ->. by destruct e. Qed.

Lemma helperText_no_error (s : AppState) :
  error s = None → helperText s = status s.
Proof. unfold helperText. by intros ->. Qed.

(** X9.  Without a live session (no session identifier, or an empty
    one), sending a message and building a manual chart do nothing but
    set the error message that asks for a dataset: no request is sent,
    the transcript does not get the user entry, and the chart
    collection, the flags and the status are as they were. *)
Theorem handlers_refuse_without_session
  (message : string) (payload : ManualChartRequest) (w : World) :
  hasDataset (app w) = false →
  Frame.only_error_set w (exec (handleSendMessage sendChat message) w)
    "Upload a dataset before chatting with the agent." ∧
  Frame.only_error_set w
    (exec (handleBuildManualChart buildManualChart payload) w)
    "Upload a dataset before building charts.".
Proof.
  intros Hno. apply no_session in Hno.
  rewrite (exec_refused_message _ _ Hno), (exec_refused_build _ _ Hno).
  split; repeat split.
Qed.

(** X10.  A handler never retries: whatever the outcome of the call, an
    upload sends exactly one upload request, and a message or a manual
    build sends exactly one request, with the identifier of the live
    session, or none when there is no live session. *)
Theorem handlers_send_one_request
  (file : File) (message : string) (payload : ManualChartRequest)
  (w : World) :
  requests (exec (handleUpload uploadDataset file) w)
    = requests w ++ [UploadRequest file] ∧
  requests (exec (handleSendMessage sendChat message) w)
    = requests w
      ++ match Js.as_truthy (sessionId (app w)) with
         | Some sid => [ChatRequest sid message]
         | None => []
         end ∧
  requests (exec (handleBuildManualChart buildManualChart payload) w)
    = requests w
      ++ match Js.as_truthy (sessionId (app w)) with
         | Some sid => [ManualRequest sid payload]
         | None => []
         end.
Proof.
  split; [|split].
  - rewrite exec_handleUpload. by destruct (uploadDataset file).
  - destruct (Js.as_truthy (sessionId (app w))) as [sid|] eqn:Hsid.
    + rewrite (exec_handleSendMessage _ _ _ Hsid).
      by destruct (sendChat sid message).
    + rewrite (exec_refused_message _ _ Hsid). cbn. by rewrite app_nil_r.
  - destruct (Js.as_truthy (sessionId (app w))) as [sid|] eqn:Hsid.
    + rewrite (exec_handleBuildManualChart _ _ _ Hsid).
      by destruct (buildManualChart sid payload).
    + rewrite (exec_refused_build _ _ Hsid). cbn. by rewrite app_nil_r.
Qed.

(** X11.  The busy flags are always released.  Whatever the outcome of
    the call, after an upload [uploading] is false; after a message
    [chatLoading] is false when there was a live session and untouched
    otherwise; after a manual build the same holds of [manualLoading].
    No handler touches the flag of another. *)
Theorem handlers_release_their_flag
  (file : File) (message : string) (payload : ManualChartRequest)
  (w : World) :
  (let w' := exec (handleUpload uploadDataset file) w in
   uploading (app w') = false ∧
   chatLoading (app w') = chatLoading (app w) ∧
   manualLoading (app w') = manualLoading (app w)) ∧
  (let w' := exec (handleSendMessage sendChat message) w in
   chatLoading (app w')
     = (if hasDataset (app w) then false else chatLoading (app w)) ∧
   uploading (app w') = uploading (app w) ∧
   manualLoading (app w') = manualLoading (app w)) ∧
  (let w' := exec (handleBuildManualChart buildManualChart payload) w in
   manualLoading (app w')
     = (if hasDataset (app w) then false else manualLoading (app w)) ∧
   uploading (app w') = uploading (app w) ∧
   chatLoading (app w') = chatLoading (app w)).
Proof.
  cbv zeta. rewrite !hasDataset_as_truthy. split; [|split].
  - rewrite exec_handleUpload. by destruct (uploadDataset file).
  - destruct (Js.as_truthy (sessionId (app w))) as [sid|] eqn:Hsid.
    + rewrite (exec_handleSendMessage _ _ _ Hsid).
      by destruct (sendChat sid message).
    + by rewrite (exec_refused_message _ _ Hsid).
  - destruct (Js.as_truthy (sessionId (app w))) as [sid|] eqn:Hsid.
    + rewrite (exec_handleBuildManualChart _ _ _ Hsid).
      by destruct (buildManualChart sid payload).
    + by rewrite (exec_refused_build _ _ Hsid).
Qed.

(** X12.  Whatever the session and the outcome of the call, sending a
    message leaves the session identifier, the column summaries and the
    preview as they were, and a manual build leaves these and the
    transcript as they were.  So neither can end a live session or
    start one. *)
Theorem chat_and_build_keep_the_session
  (message : string) (payload : ManualChartRequest) (w : World) :
  (let w' := exec (handleSendMessage sendChat message) w in
   Frame.same_session (app w) (app w') ∧
   hasDataset (app w') = hasDataset (app w)) ∧
  (let w' := exec (handleBuildManualChart buildManualChart payload) w in
   Frame.same_session (app w) (app w') ∧
   history (app w') = history (app w) ∧
   hasDataset (app w') = hasDataset (app w)).
Proof.
  cbv zeta. unfold Frame.same_session, hasDataset. split.
  - destruct (Js.as_truthy (sessionId (app w))) as [sid|] eqn:Hsid.
    + rewrite (exec_handleSendMessage _ _ _ Hsid).
      by destruct (sendChat sid message).
    + by rewrite (exec_refused_message _ _ Hsid).
  - destruct (Js.as_truthy (sessionId (app w))) as [sid|] eqn:Hsid.
    + rewrite (exec_handleBuildManualChart _ _ _ Hsid).
      by destruct (buildManualChart sid payload).
    + by rewrite (exec_refused_build _ _ Hsid).
Qed.

(** X13.  The line under the header after a handler has run.  After
    a call that resolved, it is the status of the handler, whatever
    error was shown before; for a manual build that is the message of
    the response, even an empty one, and "Chart updated." only when the
    response has no message.  After a call that was rejected, it is the
    message of the error; the status of the handler shows instead when
    that message is the empty string. *)
Theorem status_line_after_a_call
  (file : File) (message : string) (payload : ManualChartRequest)
  (w : World) (sid : string) :
  sessionId (app w) = Some sid → sid ≠ "" →
  helperText (app (exec (handleUpload uploadDataset file) w))
    = match uploadDataset file with
      | Js.Resolved _ => "Dataset loaded. Ask the agent for insights."
      | Js.Rejected err =>
          Frame.failure_line err "Failed to upload dataset."
            "Upload failed. Please try another file."
      end ∧
  helperText (app (exec (handleSendMessage sendChat message) w))
    = match sendChat sid message with
      | Js.Resolved _ => "Charts updated. Ask another question to refine."
      | Js.Rejected err =>
          Frame.failure_line err "Chat request failed."
            "Agent error. Try sending your message again."
      end ∧
  helperText (app (exec (handleBuildManualChart buildManualChart payload) w))
    = match buildManualChart sid payload with
      | Js.Resolved response =>
          default "Chart updated." (manual_message response)
      | Js.Rejected err =>
          Frame.failure_line err "Failed to build manual chart."
            "Manual chart failed. Adjust selections and retry."
      end.
Proof.
  intros Hs Hne. pose proof (live_session _ _ Hs Hne) as Hlive.
  rewrite exec_handleUpload, (exec_handleSendMessage _ _ _ Hlive),
    (exec_handleBuildManualChart _ _ _ Hlive).
  unfold Frame.failure_line. split; [|split].
  - destruct (uploadDataset file) as [result|err].
    + by apply helperText_no_error.
    + by apply helperText_error.
  - destruct (sendChat sid message) as [response|err].
    + by apply helperText_no_error.
    + by apply helperText_error.
  - destruct (buildManualChart sid payload) as [response|err].
    + by apply helperText_no_error.
    + by apply helperText_error.
Qed.

(** X14.  A message sent after an upload that resolved goes out under
    the session identifier of the upload response, and when the chat
    call fails the transcript and the chart collection are empty, as
    the upload left them.  When the upload response carries an empty
    session identifier, the status says that the dataset is loaded but
    no session is live: the message is refused and no chat request is
    sent. *)
Theorem chat_after_upload
  (file : File) (message : string) (w : World) (result : UploadResponse) :
  uploadDataset file = Js.Resolved result →
  let w1 := exec (handleUpload uploadDataset file) w in
  let w2 := exec (handleSendMessage sendChat message) w1 in
  (up_sessionId result ≠ "" →
   requests w2
     = requests w
       ++ [UploadRequest file; ChatRequest (up_sessionId result) message] ∧
   (∀ err, sendChat (up_sessionId result) message = Js.Rejected err →
           history (app w2) = [] ∧ charts (app w2) = [])) ∧
  (up_sessionId result = "" →
   hasDataset (app w1) = false ∧
   status (app w1) = "Dataset loaded. Ask the agent for insights." ∧
   requests w2 = requests w ++ [UploadRequest file] ∧
   error (app w2)
     = Some "Upload a dataset before chatting with the agent.").
Proof.
  intros Hcall. cbv zeta. rewrite exec_handleUpload, Hcall. split.
  - intros Hne.
    rewrite (exec_handleSendMessage _ _ (up_sessionId result)).
    + destruct (sendChat _ message); cbn; split;
        try (by rewrite <- app_assoc); by intros e [= <-].
    + cbn. by destruct (up_sessionId result).
  - intros Hblank. rewrite exec_refused_message.
    + unfold hasDataset. cbn. rewrite Hblank. repeat split.
    + cbn. by rewrite Hblank.
Qed.

(** X15.  What the chat panel sends, whatever [String.prototype.trim]
    does to a string.  Submitting the form does nothing, and keeps the
    text field, when the trimmed text is empty, when no session is
    live, or while a message is in flight.  Otherwise the trimmed text
    is the message that is sent, so a message that is sent is never
    empty, and the text field is emptied.  The flags of the other two
    operations play no part. *)
Theorem chat_panel_sends_trimmed_messages
  (trim : string → string) (input : string) (w : World) :
  (trim input = "" ∨ hasDataset (app w) = false
   ∨ chatLoading (app w) = true →
   submitChat sendChat trim input w = (input, w)) ∧
  (trim input ≠ "" → hasDataset (app w) = true →
   chatLoading (app w) = false →
   submitChat sendChat trim input w
     = ("", exec (handleSendMessage sendChat (trim input)) w)).
Proof.
  unfold submitChat, ChatPanel.handleSubmit, chatProps. split.
  - intros Hblocked. unfold mbind at 1. unfold state_bind at 1.
    unfold read at 1. cbn [ChatPanel.disabled ChatPanel.loading].
    destruct Hblocked as [-> | [-> | ->]]; cbn; [reflexivity| |].
    + by rewrite orb_true_r.
    + by rewrite !orb_true_r.
  - intros Hne Hlive Hidle.
    unfold mbind at 1. unfold state_bind at 1. unfold read at 1.
    cbn [ChatPanel.disabled ChatPanel.loading]. rewrite Hlive, Hidle.
    destruct (trim input) as [|a t] eqn:E; [done|]. cbn.
    unfold exec, mbind, state_bind, mret, state_ret.
    by destruct (handleSendMessage sendChat (String a t) w) as [[] w'].
Qed.

(** X16.  A control is inert while its own operation is in flight, and
    the manual form is inert without a live session: a change of the
    file input while an upload runs, and a click on the build button
    while a build runs or without a session, send nothing and change
    nothing.  When several files are selected and no upload runs, the
    first one is uploaded and the others are ignored. *)
Theorem controls_are_inert_while_busy
  (files : option (list File)) (f : ChartControls.Form) (w : World) :
  (uploading (app w) = true → changeFile uploadDataset files w = (tt, w)) ∧
  (manualLoading (app w) = true ∨ hasDataset (app w) = false →
   clickBuildChart buildManualChart f w = (tt, w)) ∧
  (∀ file others, files = Some (file :: others) →
     uploading (app w) = false →
     exec (changeFile uploadDataset files) w
       = exec (handleUpload uploadDataset file) w).
Proof.
  split; [|split].
  - intros Hbusy. unfold changeFile, mbind, state_bind, read.
    by rewrite Hbusy.
  - intros Hblocked.
    unfold clickBuildChart, ChartControls.clickBuild,
      ChartControls.buttonDisabled, ChartControls.ready, controlsProps,
      mbind, state_bind, read.
    cbn [ChartControls.disabled ChartControls.loading].
    destruct Hblocked as [-> | ->]; cbn.
    + by rewrite orb_true_r.
    + by rewrite !andb_false_r.
  - intros file others -> Hidle.
    unfold exec, changeFile. unfold mbind at 1. unfold state_bind at 1.
    unfold read at 1. by rewrite Hidle.
Qed.

End OrchestratorMore.

(** ** The manual chart form *)

(** X17.  Every request that the form hands to [onBuild] is a valid
    one.  When a click on the build button produces a request, the
    controls are enabled and no build is running, the request names the
    chart type, the grouping column and the aggregation of the form,
    the grouping column is not empty, a count request carries no value
    column, and a sum or mean request carries the value column of the
    form, which is not empty. *)
Theorem form_sends_valid_requests
  (p : ChartControls.Props) (f : ChartControls.Form)
  (payload : ManualChartRequest) :
  ChartControls.clickBuild p f = Some payload →
  ChartControls.disabled p = false ∧
  ChartControls.loading p = false ∧
  chartType payload = ChartControls.f_chartType f ∧
  groupBy payload = Some (ChartControls.f_groupBy f) ∧
  ChartControls.f_groupBy f ≠ "" ∧
  agg payload = Some (ChartControls.f_agg f) ∧
  match ChartControls.f_agg f with
  | count => value payload = None
  | _ => value payload = Some (ChartControls.f_value f) ∧
         ChartControls.f_value f ≠ ""
  end.
Proof.
  unfold ChartControls.clickBuild, ChartControls.buttonDisabled,
    ChartControls.ready, ChartControls.handleSubmit,
    ChartControls.requiresValue.
  destruct p as [dis load], f as [kind g v a]; cbn.
  destruct g as [|g0 g]; cbn; [by destruct a, dis, load, v|].
  destruct dis, load, a, v as [|v0 v]; cbn; try discriminate;
    intros [= <-]; cbn; repeat split; discriminate.
Qed.

(** X18.  The effects of the form settle in one round: running them
    again changes nothing.  They never touch the chart type or the
    aggregation, they keep a grouping column and a value column that
    are already chosen, they fill an empty grouping column with the
    first column and an empty value column with the first numeric
    column, and they clear the value column whenever the aggregation is
    count. *)
Theorem form_effects_settle
  (columns : list ColumnSummary) (f : ChartControls.Form) :
  let f' := ChartControls.runEffects columns f in
  ChartControls.runEffects columns f' = f' ∧
  ChartControls.f_chartType f' = ChartControls.f_chartType f ∧
  ChartControls.f_agg f' = ChartControls.f_agg f ∧
  (ChartControls.f_agg f = count → ChartControls.f_value f' = "") ∧
  (ChartControls.f_groupBy f ≠ "" →
   ChartControls.f_groupBy f' = ChartControls.f_groupBy f) ∧
  (ChartControls.f_groupBy f = "" →
   ChartControls.f_groupBy f'
     = default "" (head (ChartControls.groupableColumns columns))) ∧
  (ChartControls.f_agg f ≠ count → ChartControls.f_value f ≠ "" →
   ChartControls.f_value f' = ChartControls.f_value f) ∧
  (ChartControls.f_agg f ≠ count → ChartControls.f_value f = "" →
   ChartControls.f_value f'
     = default "" (head (ChartControls.numericColumns columns))).
Proof.
  unfold ChartControls.runEffects, ChartControls.requiresValue.
  destruct f as [kind g v a]. cbn.
  destruct (ChartControls.groupableColumns columns) as [|g1 gs],
    (ChartControls.numericColumns columns) as [|n1 ns]; cbn.
  all: repeat split.
  all: try (destruct g as [|g0 g], v as [|v0 v], a; cbn;
            try destruct g1; try destruct n1; reflexivity).
  all: try (intros ->; reflexivity).
  all: try (intros H; by destruct g).
  all: try (intros Ha Hv; destruct a; [done| |]; by destruct v).
  all: try (intros Ha ->; by destruct a).
Qed.

(** ** The calls to the back end *)

Lemma truthy_append (s t : string) :
  Js.truthy s = true → Js.truthy (s +:+ t) = true.
Proof. by destruct s. Qed.

Lemma strip_trailing_slash_app (s : string) :
  Js.strip_trailing_slash (s +:+ "/") = s.
Proof.
  induction s as [|c s IH]; [reflexivity|].
  rewrite append_cons. cbn [Js.strip_trailing_slash].
  destruct (s +:+ "/") as [|d t] eqn:E; [by destruct s|].
  by rewrite IH.
Qed.

Lemma strip_trailing_slash_id (s : string) :
  (∀ pre, s ≠ pre +:+ "/") → Js.strip_trailing_slash s = s.
Proof.
  induction s as [|c s IH]; [reflexivity|]. intros Hs.
  cbn [Js.strip_trailing_slash]. destruct s as [|d t].
  - destruct (Ascii.eqb_spec c "/") as [->|]; [|reflexivity].
    by destruct (Hs "").
  - rewrite IH; [reflexivity|]. intros pre E.
    apply (Hs (String c pre)). rewrite append_cons. by rewrite E.
Qed.

Section Backend.

Variable VITE_API_BASE_URL : option string.
Context (fetchUpload : Api.Fetch Api.UploadData).
Context (fetchChat : Api.Fetch ChatResponse).

(** X19.  What [handleResponse] makes of a response.  A response that
    is ok resolves to its JSON body, or rejects as the parsing did.  A
    response that is not ok always rejects: with an [Error] whose
    message is the body text, or "Request failed with status" and the
    status code when the body is empty, so the message is never empty;
    or, when the body could not be read, with the failure of the
    read. *)
Theorem handleResponse_outcomes (T : Type) (response : Api.Response T) :
  (Api.ok response = true →
   Api.handleResponse response = Api.json response) ∧
  (Api.ok response = false → ∀ body, Api.text response = Js.Resolved body →
   Api.handleResponse response
     = Js.Rejected
         (Js.ErrorObject
            (Frame.http_error_message body (Api.status response))) ∧
   Js.truthy (Frame.http_error_message body (Api.status response)) = true) ∧
  (Api.ok response = false → ∀ err, Api.text response = Js.Rejected err →
   Api.handleResponse response = Js.Rejected err).
Proof.
  unfold Api.handleResponse, Frame.http_error_message.
  split; [|split].
  - by intros ->.
  - intros -> body ->. split; [reflexivity|].
    destruct (Js.truthy body) eqn:Hb; [done|]. by apply truthy_append.
  - by intros -> err ->.
Qed.

(** X20.  The base address of the back end.  Without the environment
    setting it is the local default.  With it, one slash at the end of
    the setting is dropped, so that the paths, which start with a
    slash, are joined by a single slash; a setting that does not end in
    a slash is taken as it is.  An empty setting gives an empty base,
    not the default. *)
Theorem base_url_drops_one_trailing_slash :
  Api.API_BASE_URL None = "http://localhost:8000" ∧
  (∀ s, Api.API_BASE_URL (Some (s +:+ "/")) = s) ∧
  (∀ s, (∀ pre, s ≠ pre +:+ "/") → Api.API_BASE_URL (Some s) = s) ∧
  Api.API_BASE_URL (Some "") = "".
Proof.
  unfold Api.API_BASE_URL. cbn. split; [reflexivity|]. split; [|split].
  - intros s. by rewrite strip_trailing_slash_app.
  - intros s Hs. by rewrite strip_trailing_slash_id.
  - reflexivity.
Qed.

(** X21.  The body of a manual build request carries the session
    identifier and the chart type, and one entry for each of the
    grouping column, the value column and the aggregation that the
    request has; an entry that the request lacks is left out of the
    body rather than sent as null.  The keys come in the order
    session_id, chart_type, group_by, value, agg. *)
Theorem manual_body_leaves_out_missing_fields
  (sessionId : string) (payload : ManualChartRequest) :
  ∃ fields,
    Api.manualBody sessionId payload = Js.JObj fields ∧
    Js.assoc "session_id" fields = Some (Js.JStr sessionId) ∧
    Js.assoc "chart_type" fields
      = Some (Js.JStr (Api.kind_name (chartType payload))) ∧
    Js.assoc "group_by" fields = Js.JStr <$> groupBy payload ∧
    Js.assoc "value" fields = Js.JStr <$> value payload ∧
    Js.assoc "agg" fields = Js.JStr ∘ Api.agg_name <$> agg payload ∧
    fields.*1 `sublist_of`
      ["session_id"; "chart_type"; "group_by"; "value"; "agg"].
Proof.
  unfold Api.manualBody, Js.stringify_object. eexists. split; [reflexivity|].
  destruct payload as [kind [g|] [v|] [a|]]; cbn;
    repeat split; repeat (apply sublist_skip || apply sublist_cons
                          || apply sublist_nil).
Qed.

(** The three calls when the back end answers with a response that is
    not ok and whose body can be read. *)
Lemma uploadDataset_http_error
  (file : App.File) (response : Api.Response Api.UploadData)
  (body : string) :
  fetchUpload (Api.API_BASE_URL VITE_API_BASE_URL +:+ "/upload")
        {| Api.method := "POST"; Api.headers := [];
           Api.body := Api.FormData [("file", file)] |}
    = Js.Resolved response →
  Api.ok response = false → Api.text response = Js.Resolved body →
  Api.uploadDataset VITE_API_BASE_URL fetchUpload file
    = Js.Rejected
        (Js.ErrorObject
           (Frame.http_error_message body (Api.status response))).
Proof.
  intros Hfetch Hok Htext. unfold Api.uploadDataset, Api.fetch.
  rewrite Hfetch.
  cbn [mbind outcome_bind]. unfold Api.handleResponse.
  rewrite Hok, Htext. reflexivity.
Qed.

Lemma sendChat_http_error
  (sid message : string) (response : Api.Response ChatResponse)
  (body : string) :
  fetchChat (Api.API_BASE_URL VITE_API_BASE_URL +:+ "/chat")
        {| Api.method := "POST";
           Api.headers := [("Content-Type", "application/json")];
           Api.body := Api.JsonBody (Api.chatBody sid message) |}
    = Js.Resolved response →
  Api.ok response = false → Api.text response = Js.Resolved body →
  Api.sendChat VITE_API_BASE_URL fetchChat sid message
    = Js.Rejected
        (Js.ErrorObject
           (Frame.http_error_message body (Api.status response))).
Proof.
  intros Hfetch Hok Htext. unfold Api.sendChat, Api.fetch. rewrite Hfetch.
  cbn [mbind outcome_bind]. unfold Api.handleResponse.
  rewrite Hok, Htext. reflexivity.
Qed.

Lemma http_error_message_truthy (body : string) (code : nat) :
  Js.truthy (Frame.http_error_message body code) = true.
Proof.
  unfold Frame.http_error_message.
  destruct (Js.truthy body) eqn:Hb; [done|]. by apply truthy_append.
Qed.

(** X22.  An error response of the back end reaches the line under the
    header.  When the upload call, or the chat call of a live session,
    is answered by a response that is not ok, the line shows the body
    of the response, or "Request failed with status" and the status
    code when the body is empty; it never falls back to the status of
    the handler.  The session, the chart collection and the transcript
    are what they were before the handler ran. *)
Theorem http_error_reaches_the_status_line
  (file : App.File) (message : string) (w : App.World) (body : string) :
  (∀ response,
     fetchUpload
           (Api.API_BASE_URL VITE_API_BASE_URL +:+ "/upload")
           {| Api.method := "POST"; Api.headers := [];
              Api.body := Api.FormData [("file", file)] |}
       = Js.Resolved response →
     Api.ok response = false → Api.text response = Js.Resolved body →
     let w' :=
       App.exec
         (App.handleUpload
            (Api.uploadDataset VITE_API_BASE_URL fetchUpload) file)
         w in
     App.helperText (App.app w')
       = Frame.http_error_message body (Api.status response) ∧
     Frame.same_data (App.app w) (App.app w')) ∧
  (∀ sid response,
     App.sessionId (App.app w) = Some sid → sid ≠ "" →
     fetchChat (Api.API_BASE_URL VITE_API_BASE_URL +:+ "/chat")
           {| Api.method := "POST";
              Api.headers := [("Content-Type", "application/json")];
              Api.body := Api.JsonBody (Api.chatBody sid message) |}
       = Js.Resolved response →
     Api.ok response = false → Api.text response = Js.Resolved body →
     let w' :=
       App.exec
         (App.handleSendMessage (Api.sendChat VITE_API_BASE_URL fetchChat)
                                message)
         w in
     App.helperText (App.app w')
       = Frame.http_error_message body (Api.status response) ∧
     Frame.same_data (App.app w) (App.app w')).
Proof.
  split.
  - intros response Hfetch Hok Htext. cbv zeta.
    rewrite exec_handleUpload,
      (uploadDataset_http_error _ _ _ Hfetch Hok Htext).
    split; [|by repeat split].
    unfold App.helperText. cbn [App.app App.error Js.as_truthy Js.message_or].
    by rewrite http_error_message_truthy.
  - intros sid response Hs Hne Hfetch Hok Htext. cbv zeta.
    rewrite (exec_handleSendMessage _ _ _ sid (live_session _ _ Hs Hne)),
      (sendChat_http_error _ _ _ _ Hfetch Hok Htext).
    split; [|by repeat split].
    unfold App.helperText. cbn [App.app App.error Js.as_truthy Js.message_or].
    by rewrite http_error_message_truthy.
Qed.

(** X23.  An upload that the back end answers with an ok response
    installs the session of the response and clears the chart
    collection and the transcript; column summaries or preview rows
    that the response lacks are taken as empty.  With no column
    summary the dataset panel shows its hint and no table, whatever
    preview rows came with the response. *)
Theorem upload_response_defaults
  (file : App.File) (w : App.World)
  (response : Api.Response Api.UploadData) (data : Api.UploadData) :
  fetchUpload (Api.API_BASE_URL VITE_API_BASE_URL +:+ "/upload")
        {| Api.method := "POST"; Api.headers := [];
           Api.body := Api.FormData [("file", file)] |}
    = Js.Resolved response →
  Api.ok response = true → Api.json response = Js.Resolved data →
  let w' :=
    App.exec
      (App.handleUpload
         (Api.uploadDataset VITE_API_BASE_URL fetchUpload) file)
      w in
  App.sessionId (App.app w') = Some (Api.session_id data) ∧
  App.columns (App.app w') = default [] (Api.data_columns data) ∧
  App.preview (App.app w') = default [] (Api.data_preview data) ∧
  App.charts (App.app w') = [] ∧
  App.history (App.app w') = [] ∧
  (default [] (Api.data_columns data) = [] →
   App.renderDataPreview (App.app w') = DataPreview.HintPanel).
Proof.
  intros Hfetch Hok Hjson. cbv zeta. rewrite exec_handleUpload.
  unfold Api.uploadDataset, Api.fetch. rewrite Hfetch.
  cbn [mbind outcome_bind].
  unfold Api.handleResponse. rewrite Hok, Hjson. cbn.
  repeat split. intros Hnone.
  unfold App.renderDataPreview, DataPreview.DataPreview. cbn.
  by rewrite Hnone.
Qed.

End Backend.

(** ** The form after its effects *)

(** X24.  When the form is ready once its effects have run.  It is
    ready exactly when the controls are enabled, a grouping column is
    there (one was chosen, or the first column has a name that is not
    empty), and a value column is there if one is needed (the
    aggregation is count, or a value column was chosen, or the first
    numeric column has a name that is not empty).  The effects look at
    the first column and the first numeric column only. *)
Theorem form_is_ready_after_effects
  (columns : list ColumnSummary)
  (p : ChartControls.Props) (f : ChartControls.Form) :
  ChartControls.ready p (ChartControls.runEffects columns f)
    = (Js.truthy (ChartControls.f_groupBy f)
       || Js.truthy
            (default "" (head (ChartControls.groupableColumns columns))))
      && (negb (ChartControls.requiresValue f)
          || Js.truthy (ChartControls.f_value f)
          || Js.truthy
               (default "" (head (ChartControls.numericColumns columns))))
      && negb (ChartControls.disabled p).
Proof.
  unfold ChartControls.ready, ChartControls.runEffects,
    ChartControls.requiresValue.
  destruct f as [kind g v a].
  cbn [ChartControls.f_groupBy ChartControls.f_value ChartControls.f_agg
       ChartControls.f_chartType].
  destruct (ChartControls.groupableColumns columns) as [|[|g1 g2] gs],
    (ChartControls.numericColumns columns) as [|[|n1 n2] ns],
    g as [|g0 g], v as [|v0 v], a, (ChartControls.disabled p);
    reflexivity.
Qed.

(** ** The further statements on sample data *)

(** A pie, a line and a bar chart, in this order: the line and pie slots
    are filled. *)
Lemma slot_is_filled_when_a_chart_matches_witness :
  is_Some (Layout.slot_chart 1
             (ChartGrid.ChartGrid [Sample.slices; Sample.lines; Sample.bars]))
  ∧ is_Some (Layout.slot_chart 2
               (ChartGrid.ChartGrid
                  [Sample.slices; Sample.lines; Sample.bars])).
Proof.
  destruct (slot_is_filled_when_a_chart_matches
              [Sample.slices; Sample.lines; Sample.bars]) as (_ & Hl & Hp).
  split.
  - apply (Hl Sample.lines); [repeat constructor | reflexivity..].
  - apply (Hp Sample.slices); [repeat constructor | reflexivity..].
Defined.

(** A bar, a line and a pie chart, each added after a bar chart. *)
Lemma appended_chart_takes_its_slot_witness :
  Layout.slot_chart 0 (ChartGrid.ChartGrid ([Sample.bars] ++ [Sample.bars]))
    = Some Sample.bars ∧
  Layout.slot_chart 1 (ChartGrid.ChartGrid ([Sample.bars] ++ [Sample.lines]))
    = Some Sample.lines ∧
  Layout.slot_chart 2 (ChartGrid.ChartGrid ([Sample.bars] ++ [Sample.slices]))
    = Some Sample.slices.
Proof.
  split; [|split].
  - apply (proj1 (appended_chart_takes_its_slot [Sample.bars] Sample.bars)).
    reflexivity.
  - apply (proj1 (proj2 (appended_chart_takes_its_slot
                           [Sample.bars] Sample.lines)));
      reflexivity.
  - apply (proj2 (proj2 (appended_chart_takes_its_slot
                           [Sample.bars] Sample.slices)));
      reflexivity.
Defined.

(** A message and a manual build before any upload. *)
Lemma handlers_refuse_without_session_witness :
  Frame.only_error_set Sample.fresh
    (App.exec (App.handleSendMessage Sample.chat_ok "hello") Sample.fresh)
    "Upload a dataset before chatting with the agent."
  ∧ Frame.only_error_set Sample.fresh
      (App.exec (App.handleBuildManualChart Sample.build_ok
                   Sample.sum_without_value) Sample.fresh)
      "Upload a dataset before building charts.".
Proof.
  exact (handlers_refuse_without_session Sample.chat_ok Sample.build_ok
           "hello" Sample.sum_without_value Sample.fresh eq_refl).
Defined.

(** The line after a failed upload, an answered message and a manual
    build, in the live sample session. *)
Lemma status_line_after_a_call_witness :
  App.helperText
    (App.app (App.exec (App.handleUpload Sample.upload_down Sample.csv)
                       Sample.live)) = "Network Error"
  ∧ App.helperText
      (App.app (App.exec (App.handleSendMessage Sample.chat_ok "more")
                         Sample.live))
    = "Charts updated. Ask another question to refine."
  ∧ App.helperText
      (App.app (App.exec (App.handleBuildManualChart Sample.build_ok
                            Sample.sum_without_value) Sample.live))
    = "Chart ready.".
Proof.
  exact (status_line_after_a_call Sample.upload_down Sample.chat_ok
           Sample.build_ok Sample.csv "more" Sample.sum_without_value
           Sample.live "s1" eq_refl s1_not_blank).
Defined.

(** An upload followed by a message while the chat service is down. *)
Lemma chat_after_upload_witness :
  App.requests
    (App.exec (App.handleSendMessage Sample.chat_down "more")
       (App.exec (App.handleUpload Sample.upload_ok Sample.csv) Sample.live))
    = [App.UploadRequest Sample.csv; App.ChatRequest "s2" "more"]
  ∧ App.history
      (App.app
         (App.exec (App.handleSendMessage Sample.chat_down "more")
            (App.exec (App.handleUpload Sample.upload_ok Sample.csv)
                      Sample.live))) = [].
Proof.
  pose proof (chat_after_upload Sample.upload_ok Sample.chat_down Sample.csv
                "more" Sample.live Sample.uploaded eq_refl) as H.
  cbv zeta in H. destruct H as [H _].
  assert (up_sessionId Sample.uploaded ≠ "") as Hne by discriminate.
  destruct (H Hne) as [Hreq Hfail]. split; [exact Hreq|].
  exact (proj1 (Hfail Sample.offline eq_refl)).
Defined.

(** A blank text and a text with spaces around it, in the live sample
    session, with the trim of the examples. *)
Lemma chat_panel_sends_trimmed_messages_witness :
  App.submitChat Sample.chat_ok Sample.trim "   " Sample.live
    = ("   ", Sample.live)
  ∧ App.submitChat Sample.chat_ok Sample.trim "  more " Sample.live
    = ("", App.exec (App.handleSendMessage Sample.chat_ok "more")
                    Sample.live).
Proof.
  split.
  - apply (proj1 (chat_panel_sends_trimmed_messages Sample.chat_ok
                    Sample.trim "   " Sample.live)).
    left. reflexivity.
  - apply (proj2 (chat_panel_sends_trimmed_messages Sample.chat_ok
                    Sample.trim "  more " Sample.live));
      [discriminate | reflexivity | reflexivity].
Defined.

(** A build click before any upload, and two files selected at once. *)
Lemma controls_are_inert_while_busy_witness :
  App.clickBuildChart Sample.build_ok Sample.form_count Sample.fresh
    = (tt, Sample.fresh)
  ∧ App.exec (App.changeFile Sample.upload_ok
                (Some [Sample.csv; Sample.csv])) Sample.fresh
    = App.exec (App.handleUpload Sample.upload_ok Sample.csv) Sample.fresh.
Proof.
  destruct (controls_are_inert_while_busy Sample.upload_ok Sample.build_ok
              (Some [Sample.csv; Sample.csv]) Sample.form_count
              Sample.fresh) as (_ & Hbuild & Hfile).
  split.
  - apply Hbuild. right. reflexivity.
  - apply (Hfile Sample.csv [Sample.csv]); reflexivity.
Defined.

(** The request of the count form. *)
Lemma form_sends_valid_requests_witness :
  groupBy {| chartType := pie; groupBy := Some "region"; value := None;
             agg := Some count |} = Some "region"
  ∧ value {| chartType := pie; groupBy := Some "region"; value := None;
             agg := Some count |} = None.
Proof.
  destruct (form_sends_valid_requests Sample.enabled Sample.form_count
              {| chartType := pie; groupBy := Some "region"; value := None;
                 agg := Some count |} eq_refl)
    as (_ & _ & _ & Hg & _ & _ & Hv).
  split; [exact Hg | exact Hv].
Defined.

(** The effects on a blank form and on the count form, with a text
    column and a numeric column. *)
Lemma form_effects_settle_witness :
  ChartControls.f_groupBy
    (ChartControls.runEffects [Sample.region; Sample.amount]
                              Sample.blank_form) = "region"
  ∧ ChartControls.f_value
      (ChartControls.runEffects [Sample.region; Sample.amount]
                                Sample.blank_form) = "amount"
  ∧ ChartControls.f_value
      (ChartControls.runEffects [Sample.region; Sample.amount]
                                Sample.form_count) = "".
Proof.
  pose proof (form_effects_settle [Sample.region; Sample.amount]
                Sample.blank_form) as H.
  pose proof (form_effects_settle [Sample.region; Sample.amount]
                Sample.form_count) as H'.
  cbv zeta in H, H'.
  destruct H as (_ & _ & _ & _ & _ & Hg & _ & Hv).
  destruct H' as (_ & _ & _ & Hc & _).
  split; [exact (Hg eq_refl)|]. split; [|exact (Hc eq_refl)].
  apply Hv; [discriminate | reflexivity].
Defined.

(** A 404 response with no body, and an ok response. *)
Lemma handleResponse_outcomes_witness :
  Api.handleResponse
    {| Api.ok := false; Api.status := 404; Api.text := Js.Resolved "";
       Api.json := Js.Resolved Sample.answered |}
    = Js.Rejected (Js.ErrorObject "Request failed with status 404")
  ∧ Api.handleResponse
      {| Api.ok := true; Api.status := 200; Api.text := Js.Resolved "";
         Api.json := Js.Resolved Sample.answered |}
    = Js.Resolved Sample.answered.
Proof.
  split.
  - apply (proj1 (proj1 (proj2 (handleResponse_outcomes ChatResponse
             {| Api.ok := false; Api.status := 404;
                Api.text := Js.Resolved "";
                Api.json := Js.Resolved Sample.answered |}))
             eq_refl "" eq_refl)).
  - apply (proj1 (handleResponse_outcomes ChatResponse
             {| Api.ok := true; Api.status := 200;
                Api.text := Js.Resolved "";
                Api.json := Js.Resolved Sample.answered |}) eq_refl).
Defined.

Lemma no_slash_in_localhost (pre : string) :
  "http://localhost:8000" ≠ pre +:+ "/".
Proof.
  do 21 (destruct pre as [|? pre]; [discriminate|];
         rewrite append_cons; intros [= _ E]; revert E).
  by destruct pre.
Qed.

(** A setting without and a setting with a slash at the end. *)
Lemma base_url_drops_one_trailing_slash_witness :
  Api.API_BASE_URL (Some "http://localhost:8000") = "http://localhost:8000"
  ∧ Api.API_BASE_URL (Some ("https://charts.test" +:+ "/"))
    = "https://charts.test".
Proof.
  destruct base_url_drops_one_trailing_slash as (_ & Hslash & Hplain & _).
  split.
  - apply Hplain. apply no_slash_in_localhost.
  - apply Hslash.
Defined.

(** A 500 response with no body to an upload, and a 400 response with a
    body to a message. *)
Lemma http_error_reaches_the_status_line_witness :
  App.helperText
    (App.app
       (App.exec
          (App.handleUpload (Api.uploadDataset None Sample.upload_500)
                            Sample.csv)
          Sample.live)) = "Request failed with status 500"
  ∧ App.helperText
      (App.app
         (App.exec
            (App.handleSendMessage (Api.sendChat None Sample.chat_400)
                                   "more")
            Sample.live)) = "Unknown session".
Proof.
  split.
  - apply (proj1 (http_error_reaches_the_status_line None Sample.upload_500
                    Sample.chat_400 Sample.csv "more" Sample.live "")
             _ eq_refl eq_refl eq_refl).
  - apply (proj2 (http_error_reaches_the_status_line None Sample.upload_500
                    Sample.chat_400 Sample.csv "more" Sample.live
                    "Unknown session")
             "s1" _ eq_refl s1_not_blank eq_refl eq_refl eq_refl).
Defined.

(** An upload response without column summaries. *)
Lemma upload_response_defaults_witness :
  App.columns
    (App.app
       (App.exec
          (App.handleUpload (Api.uploadDataset None Sample.upload_bare)
                            Sample.csv)
          Sample.live)) = []
  ∧ App.renderDataPreview
      (App.app
         (App.exec
            (App.handleUpload (Api.uploadDataset None Sample.upload_bare)
                              Sample.csv)
            Sample.live)) = DataPreview.HintPanel.
Proof.
  pose proof (upload_response_defaults None Sample.upload_bare Sample.csv
                Sample.live _ Sample.bare_upload eq_refl eq_refl eq_refl)
    as H.
  cbv zeta in H. destruct H as (_ & Hc & _ & _ & _ & Hp).
  split; [exact Hc | exact (Hp eq_refl)].
Defined.

(** The resolved kind of a chart declared as "Line", with the
    lower-casing of the model. *)
Lemma normalizeType_is_lower_case_witness :
  Js.toLowerCase (ChartGrid.normalizeTypeWith Js.toLowerCase
                    (Some Sample.lines))
    = ChartGrid.normalizeTypeWith Js.toLowerCase (Some Sample.lines).
Proof.
  exact (normalizeType_is_lower_case Js.toLowerCase (Some Sample.lines)
           toLowerCase_idemp eq_refl).
Defined.
